(** * ESP32 PC hardware monitor: telemetry decoder, liveness and power state

    A shallow embedding of [src/main.cpp]: the serial line reader
    ([processSerialData]), the telemetry decoder ([parseMessage],
    [validateChecksum]), the liveness monitor ([checkConnectionStatus]), the
    power manager ([managePowerSaving]) and the cooperative [loop].

    Conventions.
    - A C string is the list of its characters before the terminating NUL.
    - [float] and [double] values are IEEE 754 binary32 / binary64 numbers,
      represented with the standard library's [spec_float].
    - [unsigned long] is 32 bits wide on the ESP32; subtraction wraps.
    - [millis()] is read once per call of the function that uses it: every
      function that reads the clock takes the reading as its argument [now],
      and one iteration of [loop] takes the four readings of its four calls.
    - Calls to the collaborators (serial log, backlight, CPU clock, GUI) are
      recorded, in order, in an event trace.
    - The C library ([strstr], [atoi], [atof], [sscanf]) is modelled after
      ISO C in the module [Libc]. *)

From Stdlib Require Import ZArith String Ascii Bool Lia SpecFloat.
From stdpp Require Import base list.

Local Open Scope Z_scope.

(** ** The C library functions used by the firmware *)

Module Libc.

Definition cstr := list ascii.

(** A string literal as a C string. *)
Definition lit (s : string) : cstr := list_ascii_of_string s.

Definition code (c : ascii) : Z := Z.of_N (N_of_ascii c).

Definition isspace (c : ascii) : bool :=
  (code c =? 32) || ((9 <=? code c) && (code c <=? 13)).

Definition isdigit (c : ascii) : bool :=
  (48 <=? code c) && (code c <=? 57).

Definition isalpha (c : ascii) : bool :=
  ((65 <=? code c) && (code c <=? 90)) || ((97 <=? code c) && (code c <=? 122)).

Definition isxdigit (c : ascii) : bool :=
  isdigit c || ((65 <=? code c) && (code c <=? 70))
            || ((97 <=? code c) && (code c <=? 102)).

Definition tolower (c : ascii) : ascii :=
  if (65 <=? code c) && (code c <=? 90)
  then ascii_of_N (N_of_ascii c + 32) else c.

Definition digit_val (c : ascii) : Z := code c - 48.

Definition xdigit_val (c : ascii) : Z :=
  if isdigit c then code c - 48
  else if (97 <=? code c) then code c - 87 else code c - 55.

(** *** strstr *)

(** [starts_with needle s]: [needle] is a prefix of [s]. *)
Fixpoint starts_with (needle s : cstr) : bool :=
  match needle, s with
  | [], _ => true
  | _ :: _, [] => false
  | a :: needle', b :: s' => Ascii.eqb a b && starts_with needle' s'
  end.

(** [strstr haystack needle] is the suffix of [haystack] that starts at the
    first occurrence of [needle] (the pointer C returns), or [None] for the
    null pointer. *)
Fixpoint strstr (haystack needle : cstr) : option cstr :=
  if starts_with needle haystack then Some haystack
  else match haystack with
       | [] => None
       | _ :: t => strstr t needle
       end.

(** Pointer arithmetic [p + n] on a C string. *)
Definition advance (n : nat) (p : cstr) : cstr := drop n p.

(** *** Shared scanning helpers *)

Fixpoint skip_space (s : cstr) : cstr :=
  match s with
  | c :: t => if isspace c then skip_space t else s
  | [] => []
  end.

(** An optional sign; [true] is minus. *)
Definition read_sign (s : cstr) : bool * cstr :=
  match s with
  | c :: t =>
      if Ascii.eqb c "-" then (true, t)
      else if Ascii.eqb c "+" then (false, t)
      else (false, s)
  | [] => (false, [])
  end.

(** Reads a run of digits in the given base, continuing from the
    accumulator [acc]; returns the value, the number of digits read and the
    unread rest. *)
Fixpoint scan_digits (isd : ascii -> bool) (dv : ascii -> Z) (base : Z)
    (acc : Z) (cnt : Z) (s : cstr) : Z * Z * cstr :=
  match s with
  | c :: t =>
      if isd c then scan_digits isd dv base (base * acc + dv c) (cnt + 1) t
      else (acc, cnt, s)
  | [] => (acc, cnt, [])
  end.

(** *** atoi *)

Definition INT_MAX : Z := 2147483647.
Definition INT_MIN : Z := -2147483648.

(** [strtol(s, NULL, 10)]: out-of-range values saturate. *)
Definition strtol10 (s : cstr) : Z :=
  let '(neg, t) := read_sign (skip_space s) in
  let '(n, _, _) := scan_digits isdigit digit_val 10 0 0 t in
  let v := if neg then - n else n in
  Z.max INT_MIN (Z.min INT_MAX v).

(** [long] and [int] are both 32 bits wide. *)
Definition atoi (s : cstr) : Z := strtol10 s.

(** *** strtod, atof *)

Definition prec64 : Z := 53.
Definition emax64 : Z := 1024.
Definition prec32 : Z := 24.
Definition emax32 : Z := 128.

(** The binary64 number nearest to [m * 10 ^ e10] (ties to even). *)
Definition decimal_to_double (m e10 : Z) : spec_float :=
  match m with
  | Zpos p =>
      if 0 <=? e10
      then binary_normalize prec64 emax64 (m * 10 ^ e10) 0 false
      else SFdiv prec64 emax64 (S754_finite false p 0)
                 (S754_finite false (Z.to_pos (10 ^ (- e10))) 0)
  | _ => S754_zero false
  end.

(** The binary64 number nearest to [m * 2 ^ e2]. *)
Definition binary_to_double (m e2 : Z) : spec_float :=
  binary_normalize prec64 emax64 m e2 false.

(** Conversion [(float) d] of a double. *)
Definition double_to_float (d : spec_float) : spec_float :=
  match d with
  | S754_finite s m e => binary_round prec32 emax32 s m e
  | _ => d
  end.

(** Promotion of a float to double (exact). *)
Definition float_to_double (f : spec_float) : spec_float :=
  match f with
  | S754_finite s m e => binary_round prec64 emax64 s m e
  | _ => f
  end.

Fixpoint starts_with_ci (needle s : cstr) : bool :=
  match needle, s with
  | [], _ => true
  | _ :: _, [] => false
  | a :: needle', b :: s' => Ascii.eqb a (tolower b) && starts_with_ci needle' s'
  end.

(** An optional exponent part: the marker, an optional sign and at least
    one decimal digit. Without a digit nothing is consumed. *)
Definition scan_exponent (marker : ascii) (s : cstr) : Z * cstr :=
  match s with
  | c :: t =>
      if Ascii.eqb (tolower c) marker then
        let '(neg, u) := read_sign t in
        let '(ev, n, rest) := scan_digits isdigit digit_val 10 0 0 u in
        if 0 <? n then (if neg then - ev else ev, rest) else (0, s)
      else (0, s)
  | [] => (0, [])
  end.

(** Digits with an optional radix point: mantissa as an integer, number of
    digits in all, number of digits after the point, rest. *)
Definition scan_mantissa (isd : ascii -> bool) (dv : ascii -> Z) (base : Z)
    (s : cstr) : Z * Z * Z * cstr :=
  let '(m1, n1, r1) := scan_digits isd dv base 0 0 s in
  match r1 with
  | c :: r1' =>
      if Ascii.eqb c "." then
        let '(m2, n2, r2) := scan_digits isd dv base m1 0 r1' in
        (m2, n1 + n2, n2, r2)
      else (m1, n1, 0, r1)
  | [] => (m1, n1, 0, [])
  end.

(** The optional parenthesised character sequence after NAN. *)
Fixpoint skip_n_char_seq (s : cstr) : option cstr :=
  match s with
  | c :: t =>
      if Ascii.eqb c ")" then Some t
      else if isdigit c || isalpha c || Ascii.eqb c "_" then skip_n_char_seq t
      else None
  | [] => None
  end.

Definition scan_decimal (s : cstr) : option (spec_float * cstr) :=
  let '(m, n, nfrac, r) := scan_mantissa isdigit digit_val 10 s in
  if 0 <? n then
    let '(e, rest) := scan_exponent "e" r in
    Some (decimal_to_double m (e - nfrac), rest)
  else None.

Definition scan_hex (s : cstr) : option (spec_float * cstr) :=
  match s with
  | z :: x :: t =>
      if Ascii.eqb z "0" && Ascii.eqb (tolower x) "x" then
        let '(m, n, nfrac, r) := scan_mantissa isxdigit xdigit_val 16 t in
        if 0 <? n then
          let '(e, rest) := scan_exponent "p" r in
          Some (binary_to_double m (e - 4 * nfrac), rest)
        else None
      else None
  | _ => None
  end.

(** The unsigned part of the subject sequence of [strtod] (ISO C 7.22.1.3):
    INF or INFINITY, NAN or NAN(n-char-sequence), a hexadecimal or a decimal
    floating constant. [None]: no conversion can be performed. *)
Definition scan_number (s : cstr) : option (spec_float * cstr) :=
  if starts_with_ci (lit "infinity") s then Some (S754_infinity false, drop 8 s)
  else if starts_with_ci (lit "inf") s then Some (S754_infinity false, drop 3 s)
  else if starts_with_ci (lit "nan") s then
    match drop 3 s with
    | c :: t =>
        if Ascii.eqb c "(" then
          match skip_n_char_seq t with
          | Some rest => Some (S754_nan, rest)
          | None => Some (S754_nan, c :: t)
          end
        else Some (S754_nan, c :: t)
    | [] => Some (S754_nan, [])
    end
  else match scan_hex s with
       | Some r => Some r
       | None => scan_decimal s
       end.

(** A signed number after optional white space, as a double. *)
Definition scan_double (s : cstr) : option (spec_float * cstr) :=
  let '(neg, t) := read_sign (skip_space s) in
  match scan_number t with
  | Some (v, rest) => Some (if neg then SFopp v else v, rest)
  | None => None
  end.

(** [strtod(s, &end)]: value and end pointer; zero and [s] itself when no
    conversion is performed. *)
Definition strtod (s : cstr) : spec_float * cstr :=
  match scan_double s with
  | Some r => r
  | None => (S754_zero false, s)
  end.

Definition atof (s : cstr) : spec_float := fst (strtod s).

(** *** sscanf with the formats "%f/%f" and "%f,%f" *)

(** The conversion [%f]: skips white space, reads a number (the subject
    sequence of [strtod]) and stores it as a float; [None] is a matching
    failure. *)
Definition scan_f (s : cstr) : option (spec_float * cstr) :=
  match scan_double s with
  | Some (v, rest) => Some (double_to_float v, rest)
  | None => None
  end.

(** [sscanf(s, "%f<sep>%f", &a, &b)]: the new values of [a] and [b]. A
    target is written only when its conversion succeeds; scanning stops at
    the first failure. *)
Definition sscanf_f_sep_f (sep : ascii) (s : cstr) (a b : spec_float)
    : spec_float * spec_float :=
  match scan_f s with
  | None => (a, b)
  | Some (x, r) =>
      match r with
      | c :: r' =>
          if Ascii.eqb c sep then
            match scan_f r' with
            | Some (y, _) => (x, y)
            | None => (x, b)
            end
          else (x, b)
      | [] => (x, b)
      end
  end.

End Libc.

Import Libc.

(** ** Configuration constants *)

Definition SERIAL_BUFFER_SIZE : nat := 128.
Definition DATA_TIMEOUT_MS : Z := 5000.
Definition POWER_SAVE_BACKLIGHT : Z := 0.
Definition NORMAL_BACKLIGHT : Z := 5.
Definition POWER_SAVE_DELAY_MS : Z := 10000.
Definition ENABLE_CPU_FREQ_SCALING : bool := true.

(** ** Numbers *)

(** Subtraction of two [unsigned long] values. *)
Definition ulong_sub (a b : Z) : Z := (a - b) mod 2 ^ 32.

Definition float := spec_float.

(** The double constants of the range check, and the float [0.0]. *)
Definition zero_f : float := S754_zero false.
Definition d0 : spec_float := S754_zero false.
Definition d100 : spec_float := decimal_to_double 100 0.
Definition d150 : spec_float := decimal_to_double 150 0.

(** [x < y] and [x > y] for a float [x] and a double [y]: the float is
    promoted to double first. *)
Definition flt_lt (x : float) (y : spec_float) : bool := SFltb (float_to_double x) y.
Definition flt_gt (x : float) (y : spec_float) : bool := SFltb y (float_to_double x).

(** ** The metrics record *)

Record SystemMetrics := {
  cpu_usage : float;
  ram_usage : float;
  temperature : float;
  cpu_freq_ghz : float;
  gpu_usage : float;
  ram_used_gb : float;
  ram_total_gb : float;
  fan_rpm : Z;
  net_download_mbps : float;
  net_upload_mbps : float;
  battery_percent : Z;
  power_watts : float;
  last_update : Z;
  connected : bool;
  power_save_mode : bool;
  disconnect_time : Z
}.

(** The initial value of the global [metrics]. *)
Definition metrics0 : SystemMetrics := {|
  cpu_usage := zero_f; ram_usage := zero_f; temperature := zero_f;
  cpu_freq_ghz := zero_f; gpu_usage := zero_f;
  ram_used_gb := zero_f; ram_total_gb := zero_f;
  fan_rpm := 0; net_download_mbps := zero_f; net_upload_mbps := zero_f;
  battery_percent := -1; power_watts := zero_f;
  last_update := 0; connected := false;
  power_save_mode := false; disconnect_time := 0
|}.

(** Field assignments. *)
Definition set_cpu_usage (v : float) (m : SystemMetrics) : SystemMetrics :=
  {| cpu_usage := v; ram_usage := ram_usage m; temperature := temperature m;
     cpu_freq_ghz := cpu_freq_ghz m; gpu_usage := gpu_usage m;
     ram_used_gb := ram_used_gb m; ram_total_gb := ram_total_gb m;
     fan_rpm := fan_rpm m; net_download_mbps := net_download_mbps m;
     net_upload_mbps := net_upload_mbps m;
     battery_percent := battery_percent m; power_watts := power_watts m;
     last_update := last_update m; connected := connected m;
     power_save_mode := power_save_mode m; disconnect_time := disconnect_time m |}.

Definition set_ram_usage (v : float) (m : SystemMetrics) : SystemMetrics :=
  {| cpu_usage := cpu_usage m; ram_usage := v; temperature := temperature m;
     cpu_freq_ghz := cpu_freq_ghz m; gpu_usage := gpu_usage m;
     ram_used_gb := ram_used_gb m; ram_total_gb := ram_total_gb m;
     fan_rpm := fan_rpm m; net_download_mbps := net_download_mbps m;
     net_upload_mbps := net_upload_mbps m;
     battery_percent := battery_percent m; power_watts := power_watts m;
     last_update := last_update m; connected := connected m;
     power_save_mode := power_save_mode m; disconnect_time := disconnect_time m |}.

Definition set_temperature (v : float) (m : SystemMetrics) : SystemMetrics :=
  {| cpu_usage := cpu_usage m; ram_usage := ram_usage m; temperature := v;
     cpu_freq_ghz := cpu_freq_ghz m; gpu_usage := gpu_usage m;
     ram_used_gb := ram_used_gb m; ram_total_gb := ram_total_gb m;
     fan_rpm := fan_rpm m; net_download_mbps := net_download_mbps m;
     net_upload_mbps := net_upload_mbps m;
     battery_percent := battery_percent m; power_watts := power_watts m;
     last_update := last_update m; connected := connected m;
     power_save_mode := power_save_mode m; disconnect_time := disconnect_time m |}.

Definition set_cpu_freq_ghz (v : float) (m : SystemMetrics) : SystemMetrics :=
  {| cpu_usage := cpu_usage m; ram_usage := ram_usage m; temperature := temperature m;
     cpu_freq_ghz := v; gpu_usage := gpu_usage m;
     ram_used_gb := ram_used_gb m; ram_total_gb := ram_total_gb m;
     fan_rpm := fan_rpm m; net_download_mbps := net_download_mbps m;
     net_upload_mbps := net_upload_mbps m;
     battery_percent := battery_percent m; power_watts := power_watts m;
     last_update := last_update m; connected := connected m;
     power_save_mode := power_save_mode m; disconnect_time := disconnect_time m |}.

Definition set_gpu_usage (v : float) (m : SystemMetrics) : SystemMetrics :=
  {| cpu_usage := cpu_usage m; ram_usage := ram_usage m; temperature := temperature m;
     cpu_freq_ghz := cpu_freq_ghz m; gpu_usage := v;
     ram_used_gb := ram_used_gb m; ram_total_gb := ram_total_gb m;
     fan_rpm := fan_rpm m; net_download_mbps := net_download_mbps m;
     net_upload_mbps := net_upload_mbps m;
     battery_percent := battery_percent m; power_watts := power_watts m;
     last_update := last_update m; connected := connected m;
     power_save_mode := power_save_mode m; disconnect_time := disconnect_time m |}.

Definition set_ram_gb (used total : float) (m : SystemMetrics) : SystemMetrics :=
  {| cpu_usage := cpu_usage m; ram_usage := ram_usage m; temperature := temperature m;
     cpu_freq_ghz := cpu_freq_ghz m; gpu_usage := gpu_usage m;
     ram_used_gb := used; ram_total_gb := total;
     fan_rpm := fan_rpm m; net_download_mbps := net_download_mbps m;
     net_upload_mbps := net_upload_mbps m;
     battery_percent := battery_percent m; power_watts := power_watts m;
     last_update := last_update m; connected := connected m;
     power_save_mode := power_save_mode m; disconnect_time := disconnect_time m |}.

Definition set_fan_rpm (v : Z) (m : SystemMetrics) : SystemMetrics :=
  {| cpu_usage := cpu_usage m; ram_usage := ram_usage m; temperature := temperature m;
     cpu_freq_ghz := cpu_freq_ghz m; gpu_usage := gpu_usage m;
     ram_used_gb := ram_used_gb m; ram_total_gb := ram_total_gb m;
     fan_rpm := v; net_download_mbps := net_download_mbps m;
     net_upload_mbps := net_upload_mbps m;
     battery_percent := battery_percent m; power_watts := power_watts m;
     last_update := last_update m; connected := connected m;
     power_save_mode := power_save_mode m; disconnect_time := disconnect_time m |}.

Definition set_net (down up : float) (m : SystemMetrics) : SystemMetrics :=
  {| cpu_usage := cpu_usage m; ram_usage := ram_usage m; temperature := temperature m;
     cpu_freq_ghz := cpu_freq_ghz m; gpu_usage := gpu_usage m;
     ram_used_gb := ram_used_gb m; ram_total_gb := ram_total_gb m;
     fan_rpm := fan_rpm m; net_download_mbps := down;
     net_upload_mbps := up;
     battery_percent := battery_percent m; power_watts := power_watts m;
     last_update := last_update m; connected := connected m;
     power_save_mode := power_save_mode m; disconnect_time := disconnect_time m |}.

Definition set_battery_percent (v : Z) (m : SystemMetrics) : SystemMetrics :=
  {| cpu_usage := cpu_usage m; ram_usage := ram_usage m; temperature := temperature m;
     cpu_freq_ghz := cpu_freq_ghz m; gpu_usage := gpu_usage m;
     ram_used_gb := ram_used_gb m; ram_total_gb := ram_total_gb m;
     fan_rpm := fan_rpm m; net_download_mbps := net_download_mbps m;
     net_upload_mbps := net_upload_mbps m;
     battery_percent := v; power_watts := power_watts m;
     last_update := last_update m; connected := connected m;
     power_save_mode := power_save_mode m; disconnect_time := disconnect_time m |}.

Definition set_power_watts (v : float) (m : SystemMetrics) : SystemMetrics :=
  {| cpu_usage := cpu_usage m; ram_usage := ram_usage m; temperature := temperature m;
     cpu_freq_ghz := cpu_freq_ghz m; gpu_usage := gpu_usage m;
     ram_used_gb := ram_used_gb m; ram_total_gb := ram_total_gb m;
     fan_rpm := fan_rpm m; net_download_mbps := net_download_mbps m;
     net_upload_mbps := net_upload_mbps m;
     battery_percent := battery_percent m; power_watts := v;
     last_update := last_update m; connected := connected m;
     power_save_mode := power_save_mode m; disconnect_time := disconnect_time m |}.

Definition set_last_update (v : Z) (m : SystemMetrics) : SystemMetrics :=
  {| cpu_usage := cpu_usage m; ram_usage := ram_usage m; temperature := temperature m;
     cpu_freq_ghz := cpu_freq_ghz m; gpu_usage := gpu_usage m;
     ram_used_gb := ram_used_gb m; ram_total_gb := ram_total_gb m;
     fan_rpm := fan_rpm m; net_download_mbps := net_download_mbps m;
     net_upload_mbps := net_upload_mbps m;
     battery_percent := battery_percent m; power_watts := power_watts m;
     last_update := v; connected := connected m;
     power_save_mode := power_save_mode m; disconnect_time := disconnect_time m |}.

Definition set_connected (v : bool) (m : SystemMetrics) : SystemMetrics :=
  {| cpu_usage := cpu_usage m; ram_usage := ram_usage m; temperature := temperature m;
     cpu_freq_ghz := cpu_freq_ghz m; gpu_usage := gpu_usage m;
     ram_used_gb := ram_used_gb m; ram_total_gb := ram_total_gb m;
     fan_rpm := fan_rpm m; net_download_mbps := net_download_mbps m;
     net_upload_mbps := net_upload_mbps m;
     battery_percent := battery_percent m; power_watts := power_watts m;
     last_update := last_update m; connected := v;
     power_save_mode := power_save_mode m; disconnect_time := disconnect_time m |}.

Definition set_power_save_mode (v : bool) (m : SystemMetrics) : SystemMetrics :=
  {| cpu_usage := cpu_usage m; ram_usage := ram_usage m; temperature := temperature m;
     cpu_freq_ghz := cpu_freq_ghz m; gpu_usage := gpu_usage m;
     ram_used_gb := ram_used_gb m; ram_total_gb := ram_total_gb m;
     fan_rpm := fan_rpm m; net_download_mbps := net_download_mbps m;
     net_upload_mbps := net_upload_mbps m;
     battery_percent := battery_percent m; power_watts := power_watts m;
     last_update := last_update m; connected := connected m;
     power_save_mode := v; disconnect_time := disconnect_time m |}.

Definition set_disconnect_time (v : Z) (m : SystemMetrics) : SystemMetrics :=
  {| cpu_usage := cpu_usage m; ram_usage := ram_usage m; temperature := temperature m;
     cpu_freq_ghz := cpu_freq_ghz m; gpu_usage := gpu_usage m;
     ram_used_gb := ram_used_gb m; ram_total_gb := ram_total_gb m;
     fan_rpm := fan_rpm m; net_download_mbps := net_download_mbps m;
     net_upload_mbps := net_upload_mbps m;
     battery_percent := battery_percent m; power_watts := power_watts m;
     last_update := last_update m; connected := connected m;
     power_save_mode := power_save_mode m; disconnect_time := v |}.

(** ** Calls to the collaborators

    The trace also records each call of the decoder with the line it is
    given, so that what the transport reader hands over can be stated. *)

Inductive Event :=
  | Call_parseMessage (message : cstr)
  | Serial_println (s : string)
  | Set_Backlight (level : Z)
  | setCpuFrequencyMhz (mhz : Z)
  | ui_update_cpu (percent freq_ghz : float)
  | ui_update_gpu (percent : float)
  | ui_update_ram (percent used_gb total_gb : float)
  | ui_update_temp (celsius : float) (rpm : Z)
  | ui_update_network (download_mbps upload_mbps : float)
  | ui_update_battery (percent : Z) (watts : float)
  | Timer_Loop
  | delay (ms : Z).

Definition is_ui_update (e : Event) : bool :=
  match e with
  | ui_update_cpu _ _ | ui_update_gpu _ | ui_update_ram _ _ _
  | ui_update_temp _ _ | ui_update_network _ _ | ui_update_battery _ _ => true
  | _ => false
  end.

(** ** The decoder *)

Definition validateChecksum (message : cstr) : bool :=
  match strstr message (lit ",CHK:") with
  | None => false
  | Some chk_pos =>
      let received_checksum := atoi (advance 5 chk_pos) in
      true
  end.

(** The nine assignments that reset the optional fields. *)
Definition reset_optional (m : SystemMetrics) : SystemMetrics :=
  set_power_watts zero_f
    (set_battery_percent (-1)
      (set_net zero_f zero_f
        (set_fan_rpm 0
          (set_ram_gb zero_f zero_f
            (set_gpu_usage zero_f
              (set_cpu_freq_ghz zero_f m)))))).

(** The seven optional keys, in the order of the source. *)
Definition parse_optional (message : cstr) (m : SystemMetrics) : SystemMetrics :=
  let m := match strstr message (lit "FREQ:") with
           | Some pos => set_cpu_freq_ghz (double_to_float (atof (advance 5 pos))) m
           | None => m
           end in
  let m := match strstr message (lit "GPU:") with
           | Some pos => set_gpu_usage (double_to_float (atof (advance 4 pos))) m
           | None => m
           end in
  let m := match strstr message (lit "RAMGB:") with
           | Some pos =>
               let '(u, t) := sscanf_f_sep_f "/" (advance 6 pos)
                                (ram_used_gb m) (ram_total_gb m) in
               set_ram_gb u t m
           | None => m
           end in
  let m := match strstr message (lit "FAN:") with
           | Some pos => set_fan_rpm (atoi (advance 4 pos)) m
           | None => m
           end in
  let m := match strstr message (lit "NET:") with
           | Some pos =>
               let '(d, u) := sscanf_f_sep_f "," (advance 4 pos)
                                (net_download_mbps m) (net_upload_mbps m) in
               set_net d u m
           | None => m
           end in
  let m := match strstr message (lit "BAT:") with
           | Some pos => set_battery_percent (atoi (advance 4 pos)) m
           | None => m
           end in
  match strstr message (lit "POWER:") with
  | Some pos => set_power_watts (double_to_float (atof (advance 6 pos))) m
  | None => m
  end.

(** The range check on the required fields; [true] when a value is out of
    range. *)
Definition out_of_range (m : SystemMetrics) : bool :=
  flt_lt (cpu_usage m) d0 || flt_gt (cpu_usage m) d100 ||
  flt_lt (ram_usage m) d0 || flt_gt (ram_usage m) d100 ||
  flt_lt (temperature m) d0 || flt_gt (temperature m) d150.

(** [parseMessage message]: the return value, the new value of the global
    [metrics] and the lines printed. *)
Definition parseMessage (message : cstr) (m : SystemMetrics)
    : bool * SystemMetrics * list Event :=
  if negb (validateChecksum message) then
    (false, m, [Serial_println "Error: Invalid checksum"])
  else
    let m := reset_optional m in
    match strstr message (lit "CPU:") with
    | None => (false, m, [Serial_println "Error: CPU field missing"])
    | Some pos =>
      let m := set_cpu_usage (double_to_float (atof (advance 4 pos))) m in
      match strstr message (lit "RAM:") with
      | None => (false, m, [Serial_println "Error: RAM field missing"])
      | Some pos =>
        let m := set_ram_usage (double_to_float (atof (advance 4 pos))) m in
        match strstr message (lit "TEMP:") with
        | None => (false, m, [Serial_println "Error: TEMP field missing"])
        | Some pos =>
          let m := set_temperature (double_to_float (atof (advance 5 pos))) m in
          let m := parse_optional message m in
          if out_of_range m then
            (false, m, [Serial_println "Error: Values out of range"])
          else (true, m, [])
        end
      end
    end.

(** ** Liveness monitor and power manager *)

Definition checkConnectionStatus (now : Z) (m : SystemMetrics)
    : SystemMetrics * list Event :=
  if connected m then
    let timeSinceUpdate := ulong_sub now (last_update m) in
    if DATA_TIMEOUT_MS <? timeSinceUpdate then
      (set_disconnect_time now (set_connected false m),
       [Serial_println "Connection lost - no data received"])
    else (m, [])
  else (m, []).

Definition enterPowerSaveMode (m : SystemMetrics) : SystemMetrics * list Event :=
  if power_save_mode m then (m, [])
  else
    (set_power_save_mode true m,
     [Serial_println "Entering power save mode..."; Set_Backlight POWER_SAVE_BACKLIGHT]
     ++ (if ENABLE_CPU_FREQ_SCALING
         then [setCpuFrequencyMhz 80; Serial_println "CPU frequency reduced to 80MHz"]
         else [])
     ++ [Serial_println "Power save mode active"]).

Definition exitPowerSaveMode (m : SystemMetrics) : SystemMetrics * list Event :=
  if negb (power_save_mode m) then (m, [])
  else
    (set_power_save_mode false m,
     [Serial_println "Exiting power save mode..."; Set_Backlight NORMAL_BACKLIGHT]
     ++ (if ENABLE_CPU_FREQ_SCALING
         then [setCpuFrequencyMhz 160; Serial_println "CPU frequency restored to 160MHz"]
         else [])
     ++ [Serial_println "Power save mode disabled"]).

Definition managePowerSaving (now : Z) (m : SystemMetrics)
    : SystemMetrics * list Event :=
  if negb (connected m) then
    let timeSinceDisconnect := ulong_sub now (disconnect_time m) in
    if (POWER_SAVE_DELAY_MS <? timeSinceDisconnect) && negb (power_save_mode m)
    then enterPowerSaveMode m
    else (m, [])
  else
    if power_save_mode m then exitPowerSaveMode m else (m, []).

(** ** The transport reader and the main loop *)

(** The global state: [metrics], the line buffer with its index, the static
    [lastUpdate] of [updateDisplay], and the trace of collaborator calls made
    so far (oldest first). *)
Record State := {
  metrics : SystemMetrics;
  serialBuffer : list ascii;
  bufferIndex : nat;
  lastUpdate : Z;
  trace : list Event
}.

Definition NUL : ascii := Ascii.zero.

Definition state0 : State := {|
  metrics := metrics0;
  serialBuffer := replicate SERIAL_BUFFER_SIZE NUL;
  bufferIndex := 0;
  lastUpdate := 0;
  trace := []
|}.

(** The C string stored in a character array: the characters before the
    first NUL. *)
Fixpoint c_str (buf : list ascii) : cstr :=
  match buf with
  | c :: t => if Ascii.eqb c NUL then [] else c :: c_str t
  | [] => []
  end.

Definition is_terminator (c : ascii) : bool :=
  Ascii.eqb c "010" || Ascii.eqb c "013".

(** One iteration of the [while] loop of [processSerialData], for the byte
    [c] returned by [Serial.read()]. *)
Definition read_byte (now : Z) (c : ascii) (w : State) : State :=
  if is_terminator c then
    if (0 <? bufferIndex w)%nat then
      let buf := <[bufferIndex w := NUL]> (serialBuffer w) in
      let '(ok, m, printed) := parseMessage (c_str buf) (metrics w) in
      let '(m, printed) :=
        if ok then
          (set_connected true (set_last_update now m),
           printed ++ (if negb (connected m)
                       then [Serial_println "Connection restored"] else []))
        else (m, printed) in
      {| metrics := m; serialBuffer := buf; bufferIndex := 0;
         lastUpdate := lastUpdate w;
         trace := trace w ++ Call_parseMessage (c_str buf) :: printed |}
    else w
  else if (bufferIndex w <? SERIAL_BUFFER_SIZE - 1)%nat then
    {| metrics := metrics w;
       serialBuffer := <[bufferIndex w := c]> (serialBuffer w);
       bufferIndex := S (bufferIndex w);
       lastUpdate := lastUpdate w; trace := trace w |}
  else
    {| metrics := metrics w; serialBuffer := serialBuffer w; bufferIndex := 0;
       lastUpdate := lastUpdate w;
       trace := trace w ++ [Serial_println "Error: Buffer overflow"] |}.

(** [processSerialData] with [rx] the bytes available on the serial port. *)
Fixpoint processSerialData (now : Z) (rx : list ascii) (w : State) : State :=
  match rx with
  | [] => w
  | c :: rx' => processSerialData now rx' (read_byte now c w)
  end.

(** The six GUI calls at the end of [updateDisplay]. *)
Definition ui_updates (m : SystemMetrics) : list Event :=
  [ ui_update_cpu (cpu_usage m) (cpu_freq_ghz m);
    ui_update_gpu (gpu_usage m);
    ui_update_ram (ram_usage m) (ram_used_gb m) (ram_total_gb m);
    ui_update_temp (temperature m) (fan_rpm m);
    ui_update_network (net_download_mbps m) (net_upload_mbps m);
    ui_update_battery (battery_percent m) (power_watts m) ].

Definition updateDisplay (now : Z) (w : State) : State :=
  if ulong_sub now (lastUpdate w) <? 500 then w
  else
    {| metrics := metrics w; serialBuffer := serialBuffer w;
       bufferIndex := bufferIndex w; lastUpdate := now;
       trace := trace w ++ ui_updates (metrics w) |}.

(** Runs a function on [metrics] inside the global state. *)
Definition on_metrics (f : SystemMetrics -> SystemMetrics * list Event)
    (w : State) : State :=
  let '(m, ev) := f (metrics w) in
  {| metrics := m; serialBuffer := serialBuffer w; bufferIndex := bufferIndex w;
     lastUpdate := lastUpdate w; trace := trace w ++ ev |}.

Definition emit (e : Event) (w : State) : State :=
  {| metrics := metrics w; serialBuffer := serialBuffer w;
     bufferIndex := bufferIndex w; lastUpdate := lastUpdate w;
     trace := trace w ++ [e] |}.

(** The clock readings of one iteration of [loop]: what [millis()] returns
    in [processSerialData], [checkConnectionStatus], [managePowerSaving] and
    [updateDisplay]. *)
Record Readings := {
  at_serial : Z;
  at_check : Z;
  at_power : Z;
  at_display : Z
}.

(** An iteration during which the clock does not advance. *)
Definition at_time (now : Z) : Readings :=
  {| at_serial := now; at_check := now; at_power := now; at_display := now |}.

(** One iteration of [loop], with the clock readings [t] and the bytes [rx]
    waiting on the serial port. *)
Definition loop (t : Readings) (rx : list ascii) (w : State) : State :=
  let w := processSerialData (at_serial t) rx w in
  let w := on_metrics (checkConnectionStatus (at_check t)) w in
  let w := on_metrics (managePowerSaving (at_power t)) w in
  let w := updateDisplay (at_display t) w in
  let w := emit Timer_Loop w in
  emit (delay (if power_save_mode (metrics w) then 100 else 5)) w.

(** A run of the firmware: [loop] iterated over the successive clock
    readings and serial inputs. *)
Fixpoint run (steps : list (Readings * list ascii)) (w : State) : State :=
  match steps with
  | [] => w
  | (t, rx) :: rest => run rest (loop t rx w)
  end.

(** ** Specification vocabulary *)

(** [needle] occurs somewhere in [s]. *)
Definition occurs (needle s : cstr) : Prop :=
  exists pre suf, s = pre ++ needle ++ suf.

(** Text from which [strtod] can convert nothing: after optional white space
    and an optional sign it neither starts with a digit, nor with a radix
    point followed by a digit, nor with INF or NAN in any case. *)
Definition non_numeric (s : cstr) : bool :=
  let t := snd (read_sign (skip_space s)) in
  negb (match t with c :: _ => isdigit c | [] => false end)
  && negb (match t with
           | c :: d :: _ => Ascii.eqb c "." && isdigit d
           | _ => false
           end)
  && negb (starts_with_ci (lit "inf") t)
  && negb (starts_with_ci (lit "nan") t).

(** Text from which [atoi] can convert nothing: no digit after optional
    white space and an optional sign. *)
Definition non_integer (s : cstr) : bool :=
  match snd (read_sign (skip_space s)) with
  | c :: _ => negb (isdigit c)
  | [] => true
  end.

(** The values read for the required keys, when all three keys are found. *)
Definition required_values (message : cstr) : option (float * float * float) :=
  match strstr message (lit "CPU:"), strstr message (lit "RAM:"),
        strstr message (lit "TEMP:") with
  | Some p1, Some p2, Some p3 =>
      Some (double_to_float (atof (advance 4 p1)),
            double_to_float (atof (advance 4 p2)),
            double_to_float (atof (advance 5 p3)))
  | _, _, _ => None
  end.

(** Acceptance as decided by the checksum token and the required keys
    alone. *)
Definition required_ok (message : cstr) : bool :=
  validateChecksum message &&
  match required_values message with
  | Some (c, r, t) =>
      negb (flt_lt c d0 || flt_gt c d100 || flt_lt r d0 || flt_gt r d100
            || flt_lt t d0 || flt_gt t d150)
  | None => false
  end.

(** The record [parseMessage] leaves behind when it gets past the three
    required keys with the values [c], [r] and [t]. *)
Definition decoded (message : cstr) (c r t : float) (m : SystemMetrics)
    : SystemMetrics :=
  parse_optional message
    (set_temperature t (set_ram_usage r (set_cpu_usage c (reset_optional m)))).

(** The float nearest to the double nearest to [m * 10 ^ e10]: what a
    decimal numeral becomes when read by [atof] and stored in a float. *)
Definition decimal_to_float (m e10 : Z) : float :=
  double_to_float (decimal_to_double m e10).

(** The link and power fields of the record. *)
Definition link_fields (m : SystemMetrics) : Z * bool * bool * Z :=
  (last_update m, connected m, power_save_mode m, disconnect_time m).

(** [0 <= x <= hi] for a float [x] and a double bound. *)
Definition within (x : float) (hi : spec_float) : bool :=
  SFleb d0 (float_to_double x) && SFleb (float_to_double x) hi.

(** What the rest of the firmware can observe of a state: the buffer only
    through the characters below [bufferIndex]. *)
Definition observe (w : State)
    : SystemMetrics * nat * list ascii * Z * list Event :=
  (metrics w, bufferIndex w, take (bufferIndex w) (serialBuffer w),
   lastUpdate w, trace w).

(** The buffer has its declared size and the index points inside it, before
    its last cell. *)
Definition well_formed (w : State) : Prop :=
  length (serialBuffer w) = SERIAL_BUFFER_SIZE /\
  (bufferIndex w < SERIAL_BUFFER_SIZE)%nat.

(** No line terminator among the bytes. *)
Definition no_terminator (l : list ascii) : bool :=
  forallb (fun c => negb (is_terminator c)) l.

(** The state [w] after [k] more overflow reports and nothing else. *)
Definition after_overflows (k : nat) (w : State) : State :=
  {| metrics := metrics w; serialBuffer := serialBuffer w;
     bufferIndex := bufferIndex w; lastUpdate := lastUpdate w;
     trace := trace w
              ++ replicate k (Serial_println "Error: Buffer overflow") |}.

(** The line feed character. *)
Definition LF : ascii := "010".

Definition is_connection_lost (e : Event) : bool :=
  match e with
  | Serial_println s => String.eqb s "Connection lost - no data received"
  | _ => false
  end.

Definition is_connection_restored (e : Event) : bool :=
  match e with
  | Serial_println s => String.eqb s "Connection restored"
  | _ => false
  end.

(** How often the liveness monitor reported a disconnect, and how often the
    reader reported a reconnect, among the events [l]. *)
Definition count_lost (l : list Event) : nat :=
  length (List.filter is_connection_lost l).

Definition count_restored (l : list Event) : nat :=
  length (List.filter is_connection_restored l).

Definition b2n (b : bool) : nat := if b then 1 else 0.

(** The events without any of the six GUI update calls. *)
Definition no_ui_update (l : list Event) : bool :=
  forallb (fun e => negb (is_ui_update e)) l.

(** The actions of leaving power-save mode. *)
Definition exit_actions : list Event :=
  [ Serial_println "Exiting power save mode...";
    Set_Backlight NORMAL_BACKLIGHT;
    setCpuFrequencyMhz 160;
    Serial_println "CPU frequency restored to 160MHz";
    Serial_println "Power save mode disabled" ].

(** The actions of entering power-save mode. *)
Definition enter_actions : list Event :=
  [ Serial_println "Entering power save mode...";
    Set_Backlight POWER_SAVE_BACKLIGHT;
    setCpuFrequencyMhz 80;
    Serial_println "CPU frequency reduced to 80MHz";
    Serial_println "Power save mode active" ].

(** What reading serial input at clock reading [now] can do to a state: it
    extends the trace, without GUI calls or disconnect reports, reports a
    reconnect exactly when [connected] goes from false to true, leaves the
    power fields and the display timer alone, and either leaves the link
    fields alone or ends connected with [last_update = now]. *)
Definition rx_summary (now : Z) (w w' : State) : Prop :=
  exists ev,
    trace w' = trace w ++ ev /\
    no_ui_update ev = true /\ count_lost ev = 0%nat /\
    (count_restored ev + b2n (connected (metrics w)))%nat
      = b2n (connected (metrics w')) /\
    power_save_mode (metrics w') = power_save_mode (metrics w) /\
    disconnect_time (metrics w') = disconnect_time (metrics w) /\
    lastUpdate w' = lastUpdate w /\
    ((connected (metrics w') = connected (metrics w) /\
      last_update (metrics w') = last_update (metrics w)) \/
     (connected (metrics w') = true /\ last_update (metrics w') = now)).

(** Disconnect and reconnect reports between two states are in balance with
    the change of the [connected] flag. *)
Definition balanced (w w' : State) : Prop :=
  exists ev,
    trace w' = trace w ++ ev /\
    (count_lost ev + b2n (connected (metrics w')))%nat
      = (count_restored ev + b2n (connected (metrics w)))%nat.

(** A run in which no byte arrives: only the clock readings. *)
Definition idle (times : list Readings) : list (Readings * list ascii) :=
  map (fun t => (t, [])) times.

(** ** Vocabulary for the further properties *)

(** No NUL among the bytes. *)
Definition no_NUL (l : list ascii) : bool :=
  forallb (fun c => negb (Ascii.eqb c NUL)) l.

(** Requests to the backlight and to the CPU clock. *)
Definition is_hw_request (e : Event) : bool :=
  match e with
  | Set_Backlight _ | setCpuFrequencyMhz _ => true
  | _ => false
  end.

Definition no_hw_request (l : list Event) : bool :=
  forallb (fun e => negb (is_hw_request e)) l.

(** The level of the last backlight request among the events, if any, and
    the frequency of the last clock request. *)
Definition last_backlight (l : list Event) : option Z :=
  List.fold_left
    (fun acc e => match e with Set_Backlight v => Some v | _ => acc end) l None.

Definition last_cpu_mhz (l : list Event) : option Z :=
  List.fold_left
    (fun acc e => match e with setCpuFrequencyMhz v => Some v | _ => acc end)
    l None.

(** The last requests agree with the power-save flag: after an entry the
    backlight is at the power-save level and the clock at 80 MHz, after an
    exit they are back at the normal level and 160 MHz, and before any
    request power-save is off. *)
Definition hw_in_step (w : State) : Prop :=
  last_backlight (trace w)
    = (if power_save_mode (metrics w) then Some POWER_SAVE_BACKLIGHT
       else match last_backlight (trace w) with
            | None => None
            | Some _ => Some NORMAL_BACKLIGHT
            end) /\
  last_cpu_mhz (trace w)
    = (if power_save_mode (metrics w) then Some 80
       else match last_cpu_mhz (trace w) with
            | None => None
            | Some _ => Some 160
            end).

(** The twelve metric fields of the record: everything but the link and
    power fields. *)
Definition metric_fields (m : SystemMetrics)
    : float * float * float * float * float * float * float * Z
      * float * float * Z * float :=
  (cpu_usage m, ram_usage m, temperature m, cpu_freq_ghz m, gpu_usage m,
   ram_used_gb m, ram_total_gb m, fan_rpm m, net_download_mbps m,
   net_upload_mbps m, battery_percent m, power_watts m).

(** While disconnected, the recorded disconnect lies more than the timeout
    after the last stamp, unless neither has been written since boot. *)
Definition disconnect_after_timeout (m : SystemMetrics) : Prop :=
  connected m = false ->
  (disconnect_time m = 0 /\ last_update m = 0) \/
  DATA_TIMEOUT_MS < ulong_sub (disconnect_time m) (last_update m).

(** ** The GUI update functions ([ui_hardware_monitor.c])

    The functions that [updateDisplay] calls, in the version of the file
    that declares [ui_BatIcon]. Each returns the LVGL calls it makes, in
    order. A label text is kept as the [snprintf] call that formats it
    (buffer size, format and arguments); the colour returned by LVGL's
    [lv_color_mix] is kept as that call. The style selector, which is
    [LV_PART_MAIN | LV_STATE_DEFAULT] in every call, is left out.
    Arithmetic on [float] is binary32 arithmetic. A function returns [None]
    when it converts to [uint8_t] a value that does not fit, which C leaves
    undefined. *)

Module Ui.

Inductive lv_obj_t :=
  | ui_CPULabel_Value | ui_GPULabel_Value | ui_RAMLabel_Value
  | ui_TempLabel_Value | ui_NetLabel_Value | ui_BatIcon | ui_BatLabel_Value.

Inductive lv_symbol :=
  | LV_SYMBOL_DOWN | LV_SYMBOL_UP
  | LV_SYMBOL_BATTERY_EMPTY | LV_SYMBOL_BATTERY_1 | LV_SYMBOL_BATTERY_2
  | LV_SYMBOL_BATTERY_3 | LV_SYMBOL_BATTERY_FULL.

Inductive lv_color_t :=
  | lv_color_make (r g b : Z)
  | lv_color_mix (c1 c2 : lv_color_t) (mix : Z).

Inductive lv_align_t := LV_ALIGN_OUT_LEFT_MID.

(** An argument of [snprintf]; a float is passed as a double. *)
Inductive printf_arg :=
  | arg_double (x : spec_float)
  | arg_int (n : Z)
  | arg_str (s : lv_symbol).

Inductive label_text :=
  | snprintf (size : Z) (format : string) (args : list printf_arg)
  | symbol_text (s : lv_symbol).

Inductive lv_call :=
  | lv_label_set_text (obj : lv_obj_t) (text : label_text)
  | lv_obj_set_style_text_color (obj : lv_obj_t) (col : lv_color_t)
  | lv_obj_align_to (obj base : lv_obj_t) (align : lv_align_t) (x y : Z).

(** Float constants and binary32 arithmetic. *)
Definition f (n : Z) : float := decimal_to_float n 0.
Definition f0_1 : float := decimal_to_float 1 (-1).
Definition fadd (x y : float) : float := SFadd prec32 emax32 x y.
Definition fsub (x y : float) : float := SFsub prec32 emax32 x y.
Definition fmul (x y : float) : float := SFmul prec32 emax32 x y.
Definition fdiv (x y : float) : float := SFdiv prec32 emax32 x y.

(** [(float) n] for an [int]. *)
Definition int_to_float (n : Z) : float :=
  binary_normalize prec32 emax32 n 0 false.

(** [(uint8_t) x]: the value truncated toward zero when that lies in
    0..255, undefined otherwise. *)
Definition to_uint8 (x : float) : option Z :=
  match x with
  | S754_zero _ => Some 0
  | S754_finite s m e =>
      let v := if 0 <=? e then Zpos m * 2 ^ e else Zpos m / 2 ^ (- e) in
      if s then (if v =? 0 then Some 0 else None)
      else if v <=? 255 then Some v else None
  | _ => None
  end.

Definition get_pct_color (pct : float) : option lv_color_t :=
  let pct := if SFltb pct (f 0) then f 0 else pct in
  let pct := if SFltb (f 100) pct then f 100 else pct in
  if SFltb pct (f 25) then
    match to_uint8 (fmul (fdiv pct (f 25)) (f 255)) with
    | Some ratio =>
        Some (lv_color_mix (lv_color_make 0 255 0) (lv_color_make 0 255 255) ratio)
    | None => None
    end
  else if SFltb pct (f 50) then
    match to_uint8 (fmul (fdiv (fsub pct (f 25)) (f 25)) (f 255)) with
    | Some ratio =>
        Some (lv_color_mix (lv_color_make 255 255 0) (lv_color_make 0 255 0) ratio)
    | None => None
    end
  else if SFltb pct (f 75) then
    match to_uint8 (fmul (fdiv (fsub pct (f 50)) (f 25)) (f 255)) with
    | Some ratio =>
        Some (lv_color_mix (lv_color_make 255 165 0) (lv_color_make 255 255 0) ratio)
    | None => None
    end
  else
    match to_uint8 (fmul (fdiv (fsub pct (f 75)) (f 25)) (f 255)) with
    | Some ratio =>
        Some (lv_color_mix (lv_color_make 255 0 0) (lv_color_make 255 165 0) ratio)
    | None => None
    end.

Definition gray : lv_color_t := lv_color_make 128 128 128.

Definition ui_update_cpu (percent freq_ghz : float) : option (list lv_call) :=
  let text :=
    if flt_gt freq_ghz d0
    then snprintf 48 "%.1f%% %.1fGHz"
           [arg_double (float_to_double percent);
            arg_double (float_to_double freq_ghz)]
    else snprintf 48 "%.1f%%" [arg_double (float_to_double percent)] in
  match get_pct_color percent with
  | Some col =>
      Some [lv_label_set_text ui_CPULabel_Value text;
            lv_obj_set_style_text_color ui_CPULabel_Value col]
  | None => None
  end.

Definition ui_update_gpu (percent : float) : option (list lv_call) :=
  let text :=
    if flt_gt percent d0
    then snprintf 32 "%.1f%%" [arg_double (float_to_double percent)]
    else snprintf 32 "(not available)" [] in
  if flt_gt percent d0 then
    match get_pct_color percent with
    | Some col =>
        Some [lv_label_set_text ui_GPULabel_Value text;
              lv_obj_set_style_text_color ui_GPULabel_Value col]
    | None => None
    end
  else
    Some [lv_label_set_text ui_GPULabel_Value text;
          lv_obj_set_style_text_color ui_GPULabel_Value gray].

Definition ui_update_ram (percent used_gb total_gb : float)
    : option (list lv_call) :=
  let text :=
    if flt_gt used_gb d0 && flt_gt total_gb d0
    then snprintf 48 "%.0f%% %.1f/%.1fGB"
           [arg_double (float_to_double percent);
            arg_double (float_to_double used_gb);
            arg_double (float_to_double total_gb)]
    else snprintf 48 "%.0f%%" [arg_double (float_to_double percent)] in
  match get_pct_color percent with
  | Some col =>
      Some [lv_label_set_text ui_RAMLabel_Value text;
            lv_obj_set_style_text_color ui_RAMLabel_Value col]
  | None => None
  end.

Definition ui_update_temp (celsius : float) (fan_rpm : Z)
    : option (list lv_call) :=
  let text :=
    if 0 <? fan_rpm
    then snprintf 48 "%.0f°C %dRPM"
           [arg_double (float_to_double celsius); arg_int fan_rpm]
    else snprintf 48 "%.0f°C" [arg_double (float_to_double celsius)] in
  let temp_pct :=
    fmul (fdiv (fsub celsius (f 30)) (fsub (f 90) (f 30))) (f 100) in
  match get_pct_color temp_pct with
  | Some col =>
      Some [lv_label_set_text ui_TempLabel_Value text;
            lv_obj_set_style_text_color ui_TempLabel_Value col]
  | None => None
  end.

Definition ui_update_network (download_mbps upload_mbps : float)
    : option (list lv_call) :=
  let down_sym := LV_SYMBOL_DOWN in
  let up_sym := LV_SYMBOL_UP in
  let download_kbps := fmul download_mbps (f 1024) in
  let upload_kbps := fmul upload_mbps (f 1024) in
  let text :=
    if SFltb download_mbps (f 1) && SFltb upload_mbps (f 1) then
      snprintf 64 "%s%.0fk %s%.0fk"
        [arg_str down_sym; arg_double (float_to_double download_kbps);
         arg_str up_sym; arg_double (float_to_double upload_kbps)]
    else if SFltb download_mbps (f 1) then
      snprintf 64 "%s%.0fk %s%.1fM"
        [arg_str down_sym; arg_double (float_to_double download_kbps);
         arg_str up_sym; arg_double (float_to_double upload_mbps)]
    else if SFltb upload_mbps (f 1) then
      snprintf 64 "%s%.1fM %s%.0fk"
        [arg_str down_sym; arg_double (float_to_double download_mbps);
         arg_str up_sym; arg_double (float_to_double upload_kbps)]
    else
      snprintf 64 "%s%.1fM %s%.1fM"
        [arg_str down_sym; arg_double (float_to_double download_mbps);
         arg_str up_sym; arg_double (float_to_double upload_mbps)] in
  let total_speed := fadd download_mbps upload_mbps in
  let col :=
    if SFltb total_speed f0_1 then Some (lv_color_make 255 255 255)
    else if SFltb total_speed (f 60) then get_pct_color total_speed
    else get_pct_color
           (if SFltb (f 100) total_speed then f 100 else total_speed) in
  match col with
  | Some col =>
      Some [lv_label_set_text ui_NetLabel_Value text;
            lv_obj_set_style_text_color ui_NetLabel_Value col]
  | None => None
  end.

(** The icon chosen in [ui_update_battery]. *)
Definition battery_symbol (percent : Z) : lv_symbol :=
  if 90 <? percent then LV_SYMBOL_BATTERY_FULL
  else if 60 <? percent then LV_SYMBOL_BATTERY_3
  else if 30 <? percent then LV_SYMBOL_BATTERY_2
  else if 10 <? percent then LV_SYMBOL_BATTERY_1
  else LV_SYMBOL_BATTERY_EMPTY.

Definition ui_update_battery (percent : Z) (power_watts : float)
    : option (list lv_call) :=
  let text :=
    if 0 <=? percent then snprintf 16 "%d%%" [arg_int percent]
    else snprintf 16 "--%%" [] in
  let head :=
    [lv_label_set_text ui_BatLabel_Value text;
     lv_obj_align_to ui_BatLabel_Value ui_BatIcon LV_ALIGN_OUT_LEFT_MID (-5) 0;
     lv_label_set_text ui_BatIcon (symbol_text (battery_symbol percent))] in
  if 0 <=? percent then
    let inverted_pct := fsub (f 100) (int_to_float percent) in
    match get_pct_color inverted_pct with
    | Some col =>
        Some (head ++ [lv_obj_set_style_text_color ui_BatIcon col;
                       lv_obj_set_style_text_color ui_BatLabel_Value col])
    | None => None
    end
  else
    Some (head ++ [lv_obj_set_style_text_color ui_BatIcon gray;
                   lv_obj_set_style_text_color ui_BatLabel_Value gray]).

(** The fill level an icon stands for. *)
Definition symbol_level (s : lv_symbol) : Z :=
  match s with
  | LV_SYMBOL_BATTERY_EMPTY => 0
  | LV_SYMBOL_BATTERY_1 => 1
  | LV_SYMBOL_BATTERY_2 => 2
  | LV_SYMBOL_BATTERY_3 => 3
  | LV_SYMBOL_BATTERY_FULL => 4
  | _ => 0
  end.

End Ui.

(** The LVGL calls behind a GUI event of the trace. *)
Definition ui_calls (e : Event) : option (list Ui.lv_call) :=
  match e with
  | ui_update_cpu percent freq_ghz => Ui.ui_update_cpu percent freq_ghz
  | ui_update_gpu percent => Ui.ui_update_gpu percent
  | ui_update_ram percent used total => Ui.ui_update_ram percent used total
  | ui_update_temp celsius rpm => Ui.ui_update_temp celsius rpm
  | ui_update_network down up => Ui.ui_update_network down up
  | ui_update_battery percent watts => Ui.ui_update_battery percent watts
  | _ => Some []
  end.

(** * Facts about the C library model *)

Section StrstrFacts.

Lemma starts_with_prefix (needle s : cstr) :
  starts_with needle s = true <-> exists suf, s = needle ++ suf.
Proof.
  revert s; induction needle as [|a needle IH]; intros s; simpl.
  - split; [intros _; exists s; reflexivity | reflexivity].
  - destruct s as [|b s].
    + split; [discriminate | intros [suf H]; discriminate].
    + rewrite andb_true_iff, Ascii.eqb_eq, IH. split.
      * intros [-> [suf ->]]. exists suf; reflexivity.
      * intros [suf H]. injection H as -> ->. split; [reflexivity | eauto].
Qed.

Lemma strstr_Some (haystack needle p : cstr) :
  strstr haystack needle = Some p ->
  exists pre, haystack = pre ++ p /\ starts_with needle p = true.
Proof.
  induction haystack as [|c t IH]; simpl.
  - destruct (starts_with needle []) eqn:E; [|discriminate].
    intros [= <-]. exists []; auto.
  - destruct (starts_with needle (c :: t)) eqn:E.
    + intros [= <-]. exists []; auto.
    + intros H. destruct (IH H) as [pre [-> Hp]]. exists (c :: pre); auto.
Qed.

Lemma strstr_None (haystack needle : cstr) :
  strstr haystack needle = None <-> ~ occurs needle haystack.
Proof.
  induction haystack as [|c t IH]; simpl.
  - destruct (starts_with needle []) eqn:E.
    + split; [discriminate|]. intros H; exfalso; apply H.
      apply starts_with_prefix in E as [suf E]. exists [], suf; exact E.
    + split; [|reflexivity]. intros _ [pre [suf H]].
      assert (starts_with needle [] = true); [|congruence].
      apply starts_with_prefix.
      destruct pre; [|discriminate]. exists suf; exact H.
  - destruct (starts_with needle (c :: t)) eqn:E.
    + split; [discriminate|]. intros H; exfalso; apply H.
      apply starts_with_prefix in E as [suf E]. exists [], suf; exact E.
    + rewrite IH. split; intros H [pre [suf Hocc]]; apply H.
      * destruct pre as [|c' pre].
        -- assert (starts_with needle (c :: t) = true); [|congruence].
           apply starts_with_prefix. exists suf; exact Hocc.
        -- injection Hocc as -> ->. exists pre, suf; reflexivity.
      * exists (c :: pre), suf. rewrite Hocc. reflexivity.
Qed.

Lemma strstr_found (haystack needle : cstr) :
  occurs needle haystack <-> exists p, strstr haystack needle = Some p.
Proof.
  destruct (strstr haystack needle) as [p|] eqn:E.
  - split; [eauto|]. intros _.
    destruct (strstr_Some _ _ _ E) as [pre [-> Hp]].
    apply starts_with_prefix in Hp as [suf ->]. exists pre, suf; reflexivity.
  - split; [|intros [p H]; discriminate].
    intros H. apply strstr_None in E. contradiction.
Qed.

Lemma occurs_decision (needle s : cstr) :
  occurs needle s \/ ~ occurs needle s.
Proof.
  destruct (strstr s needle) as [p|] eqn:E.
  - left. apply strstr_found. eauto.
  - right. apply strstr_None. exact E.
Qed.

End StrstrFacts.

(** * The checksum policy *)

Lemma validateChecksum_occurs (message : cstr) :
  validateChecksum message = true <-> occurs (lit ",CHK:") message.
Proof.
  unfold validateChecksum. rewrite strstr_found.
  destruct (strstr message (lit ",CHK:")); split; eauto; try discriminate.
  intros [p H]; discriminate.
Qed.

Lemma validateChecksum_absent (message : cstr) :
  validateChecksum message = false <-> ~ occurs (lit ",CHK:") message.
Proof.
  rewrite <- validateChecksum_occurs.
  destruct (validateChecksum message); split; congruence.
Qed.

Lemma parseMessage_no_checksum (message : cstr) (m : SystemMetrics) :
  validateChecksum message = false ->
  parseMessage message m = (false, m, [Serial_println "Error: Invalid checksum"]).
Proof. intros H. unfold parseMessage. rewrite H. reflexivity. Qed.

Lemma parseMessage_with_checksum (message : cstr) (m : SystemMetrics) :
  validateChecksum message = true ->
  snd (parseMessage message m) <> [Serial_println "Error: Invalid checksum"].
Proof.
  intros H. unfold parseMessage. rewrite H. cbn [negb].
  repeat match goal with
         | |- context [match strstr ?h ?n with _ => _ end] =>
             destruct (strstr h n)
         | |- context [if ?b then _ else _] => destruct b
         end; cbn [snd]; discriminate.
Qed.

(** The return value of [parseMessage] when the checksum token is found:
    the required keys and their ranges decide. *)
Lemma parseMessage_checksum_found (message : cstr) (m : SystemMetrics) :
  validateChecksum message = true ->
  fst (fst (parseMessage message m)) =
    match strstr message (lit "CPU:"), strstr message (lit "RAM:"),
          strstr message (lit "TEMP:") with
    | Some p1, Some p2, Some p3 =>
        negb (out_of_range
                (parse_optional message
                   (set_temperature (double_to_float (atof (advance 5 p3)))
                      (set_ram_usage (double_to_float (atof (advance 4 p2)))
                         (set_cpu_usage (double_to_float (atof (advance 4 p1)))
                            (reset_optional m))))))
    | _, _, _ => false
    end.
Proof.
  intros H. unfold parseMessage. rewrite H. cbn [negb].
  destruct (strstr message (lit "CPU:")) as [p1|]; [|reflexivity].
  destruct (strstr message (lit "RAM:")) as [p2|]; [|reflexivity].
  destruct (strstr message (lit "TEMP:")) as [p3|]; [|reflexivity].
  destruct (out_of_range _); reflexivity.
Qed.

(** C3. Decode rejects a line for its checksum -- it returns false, leaves
    the record as it was and prints the checksum error -- exactly when the
    checksum token [,CHK:] does not occur in it. When the token occurs,
    checksum validation accepts the line whatever follows the token: no
    checksum is recomputed or compared, the checksum error is never printed,
    and the return value is decided by the required keys and their ranges
    alone. *)
Theorem checksum_policy :
  (forall message m,
     parseMessage message m
       = (false, m, [Serial_println "Error: Invalid checksum"])
     <-> ~ occurs (lit ",CHK:") message) /\
  (forall message m,
     snd (parseMessage message m) = [Serial_println "Error: Invalid checksum"]
     <-> ~ occurs (lit ",CHK:") message) /\
  (forall message,
     validateChecksum message = false <-> ~ occurs (lit ",CHK:") message) /\
  (forall pre value, validateChecksum (pre ++ lit ",CHK:" ++ value) = true) /\
  (forall pre value m,
     let message := pre ++ lit ",CHK:" ++ value in
     fst (fst (parseMessage message m)) =
       match strstr message (lit "CPU:"), strstr message (lit "RAM:"),
             strstr message (lit "TEMP:") with
       | Some p1, Some p2, Some p3 =>
           negb (out_of_range
                   (parse_optional message
                      (set_temperature (double_to_float (atof (advance 5 p3)))
                         (set_ram_usage (double_to_float (atof (advance 4 p2)))
                            (set_cpu_usage
                               (double_to_float (atof (advance 4 p1)))
                               (reset_optional m))))))
       | _, _, _ => false
       end).
Proof.
  assert (Hsnd : forall message m,
            snd (parseMessage message m)
              = [Serial_println "Error: Invalid checksum"]
            <-> ~ occurs (lit ",CHK:") message).
  { intros message m. rewrite <- validateChecksum_absent. split.
    - intros H. destruct (validateChecksum message) eqn:E; [|reflexivity].
      exfalso. exact (parseMessage_with_checksum message m E H).
    - intros H. rewrite (parseMessage_no_checksum _ _ H). reflexivity. }
  split; [|split; [|split; [|split]]].
  - intros message m. split.
    + intros H. apply (Hsnd message m). rewrite H. reflexivity.
    + intros H. apply parseMessage_no_checksum, validateChecksum_absent, H.
  - exact Hsnd.
  - exact validateChecksum_absent.
  - intros pre value. apply validateChecksum_occurs.
    exists pre, value; reflexivity.
  - intros pre value m. cbv zeta. apply parseMessage_checksum_found.
    apply validateChecksum_occurs. exists pre, value; reflexivity.
Qed.

(** * The checksum token and the comma before it *)

Lemma no_comma_chk_after_leading_chk (rest : cstr) :
  ~ occurs (lit "CHK:") rest -> ~ occurs (lit ",CHK:") (lit "CHK:" ++ rest).
Proof.
  intros H [pre [suf E]]. apply H.
  do 4 (destruct pre as [|? pre]; [discriminate E|]).
  simpl in E. injection E as _ _ _ _ E.
  exists (pre ++ [","%char]), suf. rewrite E, <- app_assoc. reflexivity.
Qed.

(** C9. The checksum token is recognised only behind a comma: a line that
    starts with [CHK:] and contains no other [CHK:] is rejected for its
    missing checksum and leaves the record as it was, whereas [,CHK:]
    anywhere in the line, with anything before and after it, passes the
    checksum check. *)
Theorem checksum_token_needs_comma (rest : cstr) (m : SystemMetrics) :
  ~ occurs (lit "CHK:") rest ->
  parseMessage (lit "CHK:" ++ rest) m
    = (false, m, [Serial_println "Error: Invalid checksum"]) /\
  (forall pre suf, validateChecksum (pre ++ lit ",CHK:" ++ suf) = true).
Proof.
  intros H. split.
  - apply parseMessage_no_checksum, validateChecksum_absent.
    apply no_comma_chk_after_leading_chk, H.
  - intros pre suf. apply validateChecksum_occurs. exists pre, suf; reflexivity.
Qed.

Lemma checksum_token_needs_comma_witness :
  parseMessage (lit "CHK:" ++ lit "171,CPU:45.2,RAM:67.8,TEMP:58.5") metrics0
    = (false, metrics0, [Serial_println "Error: Invalid checksum"]) /\
  (forall pre suf, validateChecksum (pre ++ lit ",CHK:" ++ suf) = true).
Proof.
  apply (checksum_token_needs_comma (lit "171,CPU:45.2,RAM:67.8,TEMP:58.5") metrics0).
  apply strstr_None. reflexivity.
Defined.

(** * Number conversion facts *)

Section ConversionFacts.

Lemma starts_with_ci_app (a b s : cstr) :
  starts_with_ci (a ++ b) s = true -> starts_with_ci a s = true.
Proof.
  revert s; induction a as [|x a IH]; intros s; simpl; [reflexivity|].
  destruct s as [|y s]; [discriminate|].
  rewrite !andb_true_iff. intros [H1 H2]. split; [exact H1 | apply IH, H2].
Qed.

Lemma scan_number_non_numeric (t : cstr) :
  match t with c :: _ => isdigit c | [] => false end = false ->
  match t with
  | c :: d :: _ => Ascii.eqb c "." && isdigit d
  | _ => false
  end = false ->
  starts_with_ci (lit "inf") t = false ->
  starts_with_ci (lit "nan") t = false ->
  scan_number t = None.
Proof.
  intros Hdig Hdot Hinf Hnan. unfold scan_number.
  assert (Hinfinity : starts_with_ci (lit "infinity") t = false).
  { destruct (starts_with_ci (lit "infinity") t) eqn:E; [|reflexivity].
    change (lit "infinity") with (lit "inf" ++ lit "inity") in E.
    apply starts_with_ci_app in E. congruence. }
  rewrite Hinfinity, Hinf, Hnan.
  assert (Hhex : scan_hex t = None).
  { unfold scan_hex. destruct t as [|z [|x t]]; try reflexivity.
    destruct (Ascii.eqb z "0") eqn:Ez; [|reflexivity].
    apply Ascii.eqb_eq in Ez. subst z. discriminate Hdig. }
  rewrite Hhex. unfold scan_decimal, scan_mantissa.
  destruct t as [|c t]; [reflexivity|].
  simpl scan_digits. rewrite Hdig.
  destruct (Ascii.eqb c ".") eqn:Ec; [|reflexivity].
  destruct t as [|d t]; [reflexivity|].
  cbn [andb] in Hdot.
  simpl scan_digits. rewrite Hdot.
  reflexivity.
Qed.

Lemma scan_double_non_numeric (s : cstr) :
  non_numeric s = true -> scan_double s = None.
Proof.
  unfold non_numeric, scan_double.
  destruct (read_sign (skip_space s)) as [neg t]. cbn [snd].
  rewrite !andb_true_iff, !negb_true_iff. intros [[[H1 H2] H3] H4].
  rewrite (scan_number_non_numeric t H1 H2 H3 H4). reflexivity.
Qed.

(** [atof] of text without a number is [+0.0]. *)
Lemma atof_non_numeric (s : cstr) :
  non_numeric s = true -> atof s = S754_zero false.
Proof.
  intros H. unfold atof, strtod. rewrite (scan_double_non_numeric s H).
  reflexivity.
Qed.

(** [sscanf] assigns nothing when the first number cannot be read. *)
Lemma sscanf_non_numeric (sep : ascii) (s : cstr) (a b : float) :
  non_numeric s = true -> sscanf_f_sep_f sep s a b = (a, b).
Proof.
  intros H. unfold sscanf_f_sep_f, scan_f.
  rewrite (scan_double_non_numeric s H). reflexivity.
Qed.

(** [sscanf] assigns the first target only when the text after the first
    number is not the separator followed by a number. *)
Lemma sscanf_first_only (sep : ascii) (s rest : cstr) (x a b : float) :
  scan_f s = Some (x, rest) ->
  match rest with
  | c :: rest' => Ascii.eqb c sep = false \/ non_numeric rest' = true
  | [] => True
  end ->
  sscanf_f_sep_f sep s a b = (x, b).
Proof.
  intros H1 H2. unfold sscanf_f_sep_f. rewrite H1.
  destruct rest as [|c rest']; [reflexivity|].
  destruct (Ascii.eqb c sep) eqn:E; [|reflexivity].
  destruct H2 as [H2|H2]; [discriminate|].
  unfold scan_f. rewrite (scan_double_non_numeric _ H2). reflexivity.
Qed.

(** [atoi] of text without an integer is [0]. *)
Lemma atoi_non_integer (s : cstr) :
  non_integer s = true -> atoi s = 0.
Proof.
  unfold non_integer, atoi, strtol10.
  destruct (read_sign (skip_space s)) as [neg t]. cbn [snd].
  destruct t as [|c t]; simpl.
  - intros _. destruct neg; reflexivity.
  - intros H. apply negb_true_iff in H. rewrite H. destruct neg; reflexivity.
Qed.

Lemma SFcompare_antisym (a b : spec_float) (c : comparison) :
  SFcompare a b = Some c -> SFcompare b a = Some (CompOpp c).
Proof.
  destruct a as [sa|sa| |sa ma ea], b as [sb|sb| |sb mb eb]; simpl;
    try discriminate;
    try (destruct sa); try (destruct sb); intros [= <-]; try reflexivity.
  - rewrite (Z.compare_antisym ea eb).
    destruct (ea ?= eb); simpl; try reflexivity.
    rewrite CompOpp_involutive. f_equal.
    exact (Pos.compare_cont_antisym mb ma Eq).
  - rewrite (Z.compare_antisym ea eb).
    destruct (ea ?= eb); simpl; try reflexivity.
    f_equal. symmetry. exact (Pos.compare_cont_antisym ma mb Eq).
Qed.

Lemma SFleb_not_gt (a b : spec_float) :
  SFleb a b = true -> SFltb b a = false.
Proof.
  unfold SFleb, SFltb. destruct (SFcompare a b) as [c|] eqn:E; [|discriminate].
  rewrite (SFcompare_antisym _ _ _ E). destruct c; simpl; congruence.
Qed.

(** A value within its bounds passes both comparisons of the range
    check. *)
Lemma within_passes (x : float) (hi : spec_float) :
  within x hi = true -> flt_lt x d0 = false /\ flt_gt x hi = false.
Proof.
  unfold within, flt_lt, flt_gt. rewrite andb_true_iff. intros [H1 H2].
  split; apply SFleb_not_gt; assumption.
Qed.

End ConversionFacts.

(** * The decoder *)

(** Reduces field reads of updated records. *)
Ltac simpl_fields :=
  cbn [cpu_usage ram_usage temperature cpu_freq_ghz gpu_usage ram_used_gb
       ram_total_gb fan_rpm net_download_mbps net_upload_mbps battery_percent
       power_watts last_update connected power_save_mode disconnect_time
       set_cpu_usage set_ram_usage set_temperature set_cpu_freq_ghz
       set_gpu_usage set_ram_gb set_fan_rpm set_net set_battery_percent
       set_power_watts set_last_update set_connected set_power_save_mode
       set_disconnect_time reset_optional link_fields fst snd] in *.

Section DecoderFacts.

Variable message : cstr.

(** What [parse_optional] does to each field. *)
Lemma parse_optional_fields (m : SystemMetrics) :
  let m' := parse_optional message m in
  (cpu_usage m' = cpu_usage m /\ ram_usage m' = ram_usage m /\
   temperature m' = temperature m /\ link_fields m' = link_fields m) /\
  cpu_freq_ghz m' =
    match strstr message (lit "FREQ:") with
    | Some pos => double_to_float (atof (advance 5 pos))
    | None => cpu_freq_ghz m
    end /\
  gpu_usage m' =
    match strstr message (lit "GPU:") with
    | Some pos => double_to_float (atof (advance 4 pos))
    | None => gpu_usage m
    end /\
  (ram_used_gb m', ram_total_gb m') =
    match strstr message (lit "RAMGB:") with
    | Some pos =>
        sscanf_f_sep_f "/" (advance 6 pos) (ram_used_gb m) (ram_total_gb m)
    | None => (ram_used_gb m, ram_total_gb m)
    end /\
  fan_rpm m' =
    match strstr message (lit "FAN:") with
    | Some pos => atoi (advance 4 pos)
    | None => fan_rpm m
    end /\
  (net_download_mbps m', net_upload_mbps m') =
    match strstr message (lit "NET:") with
    | Some pos =>
        sscanf_f_sep_f "," (advance 4 pos)
          (net_download_mbps m) (net_upload_mbps m)
    | None => (net_download_mbps m, net_upload_mbps m)
    end /\
  battery_percent m' =
    match strstr message (lit "BAT:") with
    | Some pos => atoi (advance 4 pos)
    | None => battery_percent m
    end /\
  power_watts m' =
    match strstr message (lit "POWER:") with
    | Some pos => double_to_float (atof (advance 6 pos))
    | None => power_watts m
    end.
Proof.
  unfold parse_optional.
  destruct (strstr message (lit "FREQ:")) as [p1|];
  destruct (strstr message (lit "GPU:")) as [p2|];
  destruct (strstr message (lit "RAMGB:")) as [p3|];
  destruct (strstr message (lit "FAN:")) as [p4|];
  destruct (strstr message (lit "NET:")) as [p5|];
  destruct (strstr message (lit "BAT:")) as [p6|];
  destruct (strstr message (lit "POWER:")) as [p7|];
  cbv zeta; simpl_fields;
  try (destruct (sscanf_f_sep_f "/" (advance 6 p3) (ram_used_gb m)
                   (ram_total_gb m)) as [? ?]; simpl_fields);
  try (destruct (sscanf_f_sep_f "," (advance 4 p5) (net_download_mbps m)
                   (net_upload_mbps m)) as [? ?]; simpl_fields);
  repeat split; reflexivity.
Qed.

Lemma reset_optional_fields (m : SystemMetrics) :
  let m' := reset_optional m in
  (cpu_usage m' = cpu_usage m /\ ram_usage m' = ram_usage m /\
   temperature m' = temperature m /\ link_fields m' = link_fields m) /\
  cpu_freq_ghz m' = zero_f /\ gpu_usage m' = zero_f /\
  ram_used_gb m' = zero_f /\ ram_total_gb m' = zero_f /\ fan_rpm m' = 0 /\
  net_download_mbps m' = zero_f /\ net_upload_mbps m' = zero_f /\
  battery_percent m' = -1 /\ power_watts m' = zero_f.
Proof. cbv zeta. simpl_fields. repeat split; reflexivity. Qed.

Lemma decoded_required (c r t : float) (m : SystemMetrics) :
  cpu_usage (decoded message c r t m) = c /\ ram_usage (decoded message c r t m) = r /\
  temperature (decoded message c r t m) = t /\
  link_fields (decoded message c r t m) = link_fields m.
Proof.
  unfold decoded.
  destruct (parse_optional_fields
              (set_temperature t (set_ram_usage r
                 (set_cpu_usage c (reset_optional m))))) as [[H1 [H2 [H3 H4]]] _].
  rewrite H1, H2, H3, H4. simpl_fields. repeat split; reflexivity.
Qed.

(** [parseMessage] once the checksum token and the three keys are found. *)
Lemma parseMessage_required_found (m : SystemMetrics) (c r t : float) :
  validateChecksum message = true ->
  required_values message = Some (c, r, t) ->
  parseMessage message m =
    if out_of_range (decoded message c r t m)
    then (false, decoded message c r t m, [Serial_println "Error: Values out of range"])
    else (true, decoded message c r t m, []).
Proof.
  intros Hchk Hreq. unfold parseMessage, required_values in *. rewrite Hchk.
  cbn [negb].
  destruct (strstr message (lit "CPU:")) as [p1|]; [|discriminate].
  destruct (strstr message (lit "RAM:")) as [p2|]; [|discriminate].
  destruct (strstr message (lit "TEMP:")) as [p3|]; [|discriminate].
  injection Hreq as <- <- <-. reflexivity.
Qed.

Lemma out_of_range_decoded (c r t : float) (m : SystemMetrics) :
  out_of_range (decoded message c r t m) =
    (flt_lt c d0 || flt_gt c d100 || flt_lt r d0 || flt_gt r d100
     || flt_lt t d0 || flt_gt t d150).
Proof.
  unfold out_of_range.
  destruct (decoded_required c r t m) as [-> [-> [-> _]]]. reflexivity.
Qed.

(** The return value of [parseMessage] is decided by the checksum token
    and the required keys alone. *)
Lemma parseMessage_accepts (m : SystemMetrics) :
  fst (fst (parseMessage message m)) = required_ok message.
Proof.
  unfold required_ok.
  destruct (validateChecksum message) eqn:Hchk.
  - destruct (required_values message) as [[[c r] t]|] eqn:Hreq.
    + rewrite (parseMessage_required_found m c r t Hchk Hreq).
      rewrite out_of_range_decoded.
      destruct (flt_lt c d0 || flt_gt c d100 || flt_lt r d0 || flt_gt r d100
                || flt_lt t d0 || flt_gt t d150); reflexivity.
    + unfold parseMessage, required_values in *. rewrite Hchk. cbn [negb andb].
      destruct (strstr message (lit "CPU:")) as [p1|]; [|reflexivity].
      destruct (strstr message (lit "RAM:")) as [p2|]; [|reflexivity].
      destruct (strstr message (lit "TEMP:")) as [p3|]; [|reflexivity].
      discriminate.
  - rewrite (parseMessage_no_checksum _ _ Hchk). reflexivity.
Qed.

(** The decoder never writes the link and power fields. *)
Lemma parseMessage_link_fields (m : SystemMetrics) :
  link_fields (snd (fst (parseMessage message m))) = link_fields m.
Proof.
  unfold parseMessage.
  destruct (validateChecksum message); cbn [negb]; [|reflexivity].
  destruct (strstr message (lit "CPU:")) as [p1|]; [|reflexivity].
  destruct (strstr message (lit "RAM:")) as [p2|]; [|reflexivity].
  destruct (strstr message (lit "TEMP:")) as [p3|]; [|reflexivity].
  fold (decoded message (double_to_float (atof (advance 4 p1)))
                (double_to_float (atof (advance 4 p2)))
                (double_to_float (atof (advance 5 p3))) m).
  destruct (out_of_range _); cbn [fst snd];
    apply decoded_required.
Qed.

End DecoderFacts.

(** ** Required keys with text that is not a number *)




(** ** Valid messages *)

(** C5. A message with the checksum token and the three required keys, whose
    values lie in range (CPU and RAM in [0,100], TEMP in [0,150]), is decoded
    successfully: the record holds exactly the values read for the required
    keys, every optional key found is populated from the message, every
    optional key not mentioned has its default, and the link and power fields
    are untouched. The message [CPU:45.2,RAM:67.8,TEMP:58.5,CHK:171] yields
    cpu 45.2, ram 67.8, temp 58.5 (as floats) and all optionals default. *)
Theorem decode_valid_message :
  (forall (message : cstr) (m : SystemMetrics) (p1 p2 p3 : cstr),
     occurs (lit ",CHK:") message ->
     strstr message (lit "CPU:") = Some p1 ->
     strstr message (lit "RAM:") = Some p2 ->
     strstr message (lit "TEMP:") = Some p3 ->
     let c := double_to_float (atof (advance 4 p1)) in
     let r := double_to_float (atof (advance 4 p2)) in
     let t := double_to_float (atof (advance 5 p3)) in
     within c d100 = true -> within r d100 = true -> within t d150 = true ->
     exists m',
       parseMessage message m = (true, m', []) /\
       cpu_usage m' = c /\ ram_usage m' = r /\ temperature m' = t /\
       cpu_freq_ghz m' =
         match strstr message (lit "FREQ:") with
         | Some pos => double_to_float (atof (advance 5 pos))
         | None => zero_f
         end /\
       gpu_usage m' =
         match strstr message (lit "GPU:") with
         | Some pos => double_to_float (atof (advance 4 pos))
         | None => zero_f
         end /\
       (ram_used_gb m', ram_total_gb m') =
         match strstr message (lit "RAMGB:") with
         | Some pos => sscanf_f_sep_f "/" (advance 6 pos) zero_f zero_f
         | None => (zero_f, zero_f)
         end /\
       fan_rpm m' =
         match strstr message (lit "FAN:") with
         | Some pos => atoi (advance 4 pos)
         | None => 0
         end /\
       (net_download_mbps m', net_upload_mbps m') =
         match strstr message (lit "NET:") with
         | Some pos => sscanf_f_sep_f "," (advance 4 pos) zero_f zero_f
         | None => (zero_f, zero_f)
         end /\
       battery_percent m' =
         match strstr message (lit "BAT:") with
         | Some pos => atoi (advance 4 pos)
         | None => -1
         end /\
       power_watts m' =
         match strstr message (lit "POWER:") with
         | Some pos => double_to_float (atof (advance 6 pos))
         | None => zero_f
         end /\
       link_fields m' = link_fields m) /\
  parseMessage (lit "CPU:45.2,RAM:67.8,TEMP:58.5,CHK:171") metrics0 =
    (true,
     {| cpu_usage := decimal_to_float 452 (-1);
        ram_usage := decimal_to_float 678 (-1);
        temperature := decimal_to_float 585 (-1);
        cpu_freq_ghz := zero_f; gpu_usage := zero_f;
        ram_used_gb := zero_f; ram_total_gb := zero_f;
        fan_rpm := 0; net_download_mbps := zero_f; net_upload_mbps := zero_f;
        battery_percent := -1; power_watts := zero_f;
        last_update := 0; connected := false;
        power_save_mode := false; disconnect_time := 0 |},
     []).
Proof.
  split; [|vm_compute; reflexivity].
  intros message m p1 p2 p3 Hchk H1 H2 H3 c r t Wc Wr Wt.
  apply validateChecksum_occurs in Hchk.
  assert (Hreq : required_values message = Some (c, r, t)).
  { unfold required_values. rewrite H1, H2, H3. reflexivity. }
  exists (decoded message c r t m).
  rewrite (parseMessage_required_found message m _ _ _ Hchk Hreq).
  rewrite out_of_range_decoded.
  destruct (within_passes _ _ Wc) as [-> ->].
  destruct (within_passes _ _ Wr) as [-> ->].
  destruct (within_passes _ _ Wt) as [-> ->].
  cbn [orb].
  destruct (decoded_required message c r t m) as [E1 [E2 [E3 E4]]].
  unfold decoded.
  destruct (parse_optional_fields message
              (set_temperature t (set_ram_usage r
                 (set_cpu_usage c (reset_optional m)))))
    as [_ [F1 [F2 [F3 [F4 [F5 [F6 F7]]]]]]].
  simpl_fields.
  repeat split; assumption.
Qed.

Lemma decode_valid_message_witness :
  exists m',
    parseMessage (lit "CPU:45.2,RAM:67.8,TEMP:58.5,FAN:1500,CHK:171") metrics0
      = (true, m', []) /\
    cpu_usage m' = decimal_to_float 452 (-1) /\
    fan_rpm m' = 1500 /\ battery_percent m' = -1.
Proof.
  destruct (proj1 decode_valid_message
              (lit "CPU:45.2,RAM:67.8,TEMP:58.5,FAN:1500,CHK:171") metrics0
              (lit "CPU:45.2,RAM:67.8,TEMP:58.5,FAN:1500,CHK:171")
              (lit "RAM:67.8,TEMP:58.5,FAN:1500,CHK:171")
              (lit "TEMP:58.5,FAN:1500,CHK:171"))
    as [m' [P [C [_ [_ [_ [_ [_ [F [_ [B _]]]]]]]]]]];
    try reflexivity.
  - apply validateChecksum_occurs. reflexivity.
  - exists m'. repeat split; assumption.
Defined.

(** ** Optional keys with values that cannot be converted *)

(** C4, as stated, fails for the battery key: a [BAT:] value without a
    number is read as 0, not as the default -1 that an absent key leaves. *)
Lemma malformed_battery_counterexample :
  let with_bat := lit "CPU:45.2,RAM:67.8,TEMP:58.5,BAT:n/a,CHK:171" in
  let without_bat := lit "CPU:45.2,RAM:67.8,TEMP:58.5,CHK:171" in
  strstr with_bat (lit "BAT:") = Some (lit "BAT:n/a,CHK:171") /\
  non_integer (lit "n/a,CHK:171") = true /\
  fst (fst (parseMessage with_bat metrics0)) = true /\
  battery_percent (snd (fst (parseMessage with_bat metrics0))) = 0 /\
  battery_percent (snd (fst (parseMessage without_bat metrics0))) = -1.
Proof. vm_compute. repeat split; reflexivity. Qed.

(** C4, amended. Whether a message is accepted is decided by the checksum
    token and the required keys alone, so an optional value is never a reason
    to reject it. When decode reaches the optional keys, a key found with a
    value from which nothing can be converted leaves its field at 0: that is
    the default for FREQ, GPU, FAN and POWER, and for both fields of RAMGB and
    NET when their first number cannot be read (when only the separator or
    the second number fails, the first field is populated and the second
    keeps its default); for BAT the field becomes 0, not the default -1. *)
Theorem malformed_optional_values
    (message : cstr) (m : SystemMetrics) (c r t : float) :
  validateChecksum message = true ->
  required_values message = Some (c, r, t) ->
  let m' := snd (fst (parseMessage message m)) in
  fst (fst (parseMessage message m)) = required_ok message /\
  (forall pos, strstr message (lit "FREQ:") = Some pos ->
     non_numeric (advance 5 pos) = true -> cpu_freq_ghz m' = zero_f) /\
  (forall pos, strstr message (lit "GPU:") = Some pos ->
     non_numeric (advance 4 pos) = true -> gpu_usage m' = zero_f) /\
  (forall pos, strstr message (lit "RAMGB:") = Some pos ->
     non_numeric (advance 6 pos) = true ->
     ram_used_gb m' = zero_f /\ ram_total_gb m' = zero_f) /\
  (forall pos x rest, strstr message (lit "RAMGB:") = Some pos ->
     scan_f (advance 6 pos) = Some (x, rest) ->
     match rest with
     | s :: rest' => Ascii.eqb s "/" = false \/ non_numeric rest' = true
     | [] => True
     end ->
     ram_used_gb m' = x /\ ram_total_gb m' = zero_f) /\
  (forall pos, strstr message (lit "FAN:") = Some pos ->
     non_integer (advance 4 pos) = true -> fan_rpm m' = 0) /\
  (forall pos, strstr message (lit "NET:") = Some pos ->
     non_numeric (advance 4 pos) = true ->
     net_download_mbps m' = zero_f /\ net_upload_mbps m' = zero_f) /\
  (forall pos x rest, strstr message (lit "NET:") = Some pos ->
     scan_f (advance 4 pos) = Some (x, rest) ->
     match rest with
     | s :: rest' => Ascii.eqb s "," = false \/ non_numeric rest' = true
     | [] => True
     end ->
     net_download_mbps m' = x /\ net_upload_mbps m' = zero_f) /\
  (forall pos, strstr message (lit "BAT:") = Some pos ->
     non_integer (advance 4 pos) = true -> battery_percent m' = 0) /\
  (forall pos, strstr message (lit "POWER:") = Some pos ->
     non_numeric (advance 6 pos) = true -> power_watts m' = zero_f).
Proof.
  intros Hchk Hreq m'. split; [apply parseMessage_accepts|].
  assert (Hm : m' = decoded message c r t m).
  { unfold m'. rewrite (parseMessage_required_found message m _ _ _ Hchk Hreq).
    destruct (out_of_range _); reflexivity. }
  rewrite Hm. unfold decoded.
  destruct (parse_optional_fields message
              (set_temperature t (set_ram_usage r
                 (set_cpu_usage c (reset_optional m)))))
    as [_ [F1 [F2 [F3 [F4 [F5 [F6 F7]]]]]]].
  simpl_fields.
  repeat match goal with |- _ /\ _ => split end.
  - intros pos H N. rewrite F1, H, (atof_non_numeric _ N). reflexivity.
  - intros pos H N. rewrite F2, H, (atof_non_numeric _ N). reflexivity.
  - intros pos H N. rewrite H, (sscanf_non_numeric _ _ _ _ N) in F3.
    split; congruence.
  - intros pos x rest H S R.
    rewrite H, (sscanf_first_only _ _ _ _ _ _ S R) in F3. split; congruence.
  - intros pos H N. rewrite F4, H. apply atoi_non_integer, N.
  - intros pos H N. rewrite H, (sscanf_non_numeric _ _ _ _ N) in F5.
    split; congruence.
  - intros pos x rest H S R.
    rewrite H, (sscanf_first_only _ _ _ _ _ _ S R) in F5. split; congruence.
  - intros pos H N. rewrite F6, H. apply atoi_non_integer, N.
  - intros pos H N. rewrite F7, H, (atof_non_numeric _ N). reflexivity.
Qed.

Lemma malformed_optional_values_witness :
  let message := lit "CPU:45.2,RAM:67.8,TEMP:58.5,FAN:x,BAT:n/a,CHK:171" in
  fst (fst (parseMessage message metrics0)) = true /\
  fan_rpm (snd (fst (parseMessage message metrics0))) = 0 /\
  battery_percent (snd (fst (parseMessage message metrics0))) = 0.
Proof.
  intros message.
  destruct (malformed_optional_values message metrics0
              (decimal_to_float 452 (-1)) (decimal_to_float 678 (-1))
              (decimal_to_float 585 (-1)) eq_refl eq_refl)
    as [A [_ [_ [_ [_ [F [_ [_ [B _]]]]]]]]].
  split; [rewrite A; reflexivity|]. split.
  - apply (F (lit "FAN:x,BAT:n/a,CHK:171")); reflexivity.
  - apply (B (lit "BAT:n/a,CHK:171")); reflexivity.
Defined.

(** ** Rejected lines *)

(** C1, as stated, fails: after a valid line with [FAN:1500], a line without
    [RAM] is rejected, yet the record no longer reflects the first line (the
    fan speed is back to 0 and the CPU value is the rejected line's). *)
Lemma rejected_line_changes_record :
  let line1 := lit "CPU:45.2,RAM:67.8,TEMP:58.5,FAN:1500,CHK:171" in
  let line2 := lit "CPU:50.0,TEMP:58.5,CHK:171" in
  let m1 := snd (fst (parseMessage line1 metrics0)) in
  let m2 := snd (fst (parseMessage line2 m1)) in
  fst (fst (parseMessage line1 metrics0)) = true /\
  fst (parseMessage line2 m1) = (false, m2) /\
  snd (parseMessage line2 m1) = [Serial_println "Error: RAM field missing"] /\
  fan_rpm m1 = 1500 /\ fan_rpm m2 = 0 /\
  cpu_usage m1 = decimal_to_float 452 (-1) /\
  cpu_usage m2 = decimal_to_float 50 0 /\
  m2 <> m1.
Proof.
  vm_compute. repeat split; try reflexivity. discriminate.
Qed.

(** C1, amended. A rejected line never changes the link and power fields. A
    line rejected for its missing checksum leaves the whole record unchanged.
    A line with the checksum token that is rejected later has by then reset
    the optional fields and overwritten the required fields found before the
    failure: without [CPU] the record is the old one with the optionals
    reset; without [RAM] also [cpu_usage] is new; without [TEMP] also
    [ram_usage]; and when the range check fails every field is the one
    decoded from the rejected line. *)
Theorem decode_rejection_effect
    (message : cstr) (m m' : SystemMetrics) (printed : list Event) :
  parseMessage message m = (false, m', printed) ->
  link_fields m' = link_fields m /\
  (~ occurs (lit ",CHK:") message -> m' = m) /\
  (occurs (lit ",CHK:") message ->
   (strstr message (lit "CPU:") = None -> m' = reset_optional m) /\
   (forall p1,
      strstr message (lit "CPU:") = Some p1 ->
      strstr message (lit "RAM:") = None ->
      m' = set_cpu_usage (double_to_float (atof (advance 4 p1)))
             (reset_optional m)) /\
   (forall p1 p2,
      strstr message (lit "CPU:") = Some p1 ->
      strstr message (lit "RAM:") = Some p2 ->
      strstr message (lit "TEMP:") = None ->
      m' = set_ram_usage (double_to_float (atof (advance 4 p2)))
             (set_cpu_usage (double_to_float (atof (advance 4 p1)))
                (reset_optional m))) /\
   (forall c r t,
      required_values message = Some (c, r, t) ->
      m' = decoded message c r t m /\ out_of_range m' = true)).
Proof.
  intros H. split; [|split].
  - pose proof (parseMessage_link_fields message m) as L.
    rewrite H in L. exact L.
  - intros Hno. apply validateChecksum_absent in Hno.
    rewrite (parseMessage_no_checksum _ _ Hno) in H. congruence.
  - intros Hchk. apply validateChecksum_occurs in Hchk.
    repeat match goal with |- _ /\ _ => split end.
    + intros E. unfold parseMessage in H. rewrite Hchk, E in H.
      cbn [negb] in H. congruence.
    + intros p1 E1 E2. unfold parseMessage in H. rewrite Hchk, E1, E2 in H.
      cbn [negb] in H. congruence.
    + intros p1 p2 E1 E2 E3. unfold parseMessage in H.
      rewrite Hchk, E1, E2, E3 in H. cbn [negb] in H. congruence.
    + intros c r t Hreq.
      rewrite (parseMessage_required_found message m _ _ _ Hchk Hreq) in H.
      destruct (out_of_range (decoded message c r t m)) eqn:E;
        [|discriminate].
      injection H as <- _. split; [reflexivity | exact E].
Qed.

Lemma decode_rejection_effect_witness :
  let line1 := lit "CPU:45.2,RAM:67.8,TEMP:58.5,FAN:1500,CHK:171" in
  let line2 := lit "CPU:50.0,TEMP:58.5,CHK:171" in
  let m1 := snd (fst (parseMessage line1 metrics0)) in
  let m2 := snd (fst (parseMessage line2 m1)) in
  link_fields m2 = link_fields m1 /\
  m2 = set_cpu_usage (decimal_to_float 50 0) (reset_optional m1).
Proof.
  intros line1 line2 m1 m2.
  destruct (decode_rejection_effect line2 m1 m2
              [Serial_println "Error: RAM field missing"] eq_refl)
    as [L [_ Hrest]].
  split; [exact L|].
  destruct Hrest as [_ [Hram _]].
  - apply validateChecksum_occurs. reflexivity.
  - apply (Hram (lit "CPU:50.0,TEMP:58.5,CHK:171")); reflexivity.
Defined.

(** * The transport reader *)

Section TransportFacts.

Variable now : Z.

Lemma c_str_insert_NUL (buf : list ascii) (i : nat) :
  (i < length buf)%nat -> c_str (<[i := NUL]> buf) = c_str (take i buf).
Proof.
  revert i; induction buf as [|c t IH]; intros i Hi; simpl in Hi; [lia|].
  destruct i as [|i]; simpl.
  - reflexivity.
  - destruct (Ascii.eqb c NUL); [reflexivity|].
    f_equal. apply IH. lia.
Qed.

Lemma read_byte_well_formed (c : ascii) (w : State) :
  well_formed w -> well_formed (read_byte now c w).
Proof.
  unfold well_formed, read_byte, SERIAL_BUFFER_SIZE. intros [HL HI].
  destruct (is_terminator c).
  - destruct (0 <? bufferIndex w)%nat; [|auto].
    destruct (parseMessage _ _) as [[ok m] printed].
    destruct ok; simpl; rewrite length_insert; split; auto; lia.
  - destruct (bufferIndex w <? 128 - 1)%nat eqn:E; simpl.
    + apply Nat.ltb_lt in E. rewrite length_insert. split; [auto | lia].
    + split; [auto | lia].
Qed.

Lemma processSerialData_well_formed (rx : list ascii) (w : State) :
  well_formed w -> well_formed (processSerialData now rx w).
Proof.
  revert w; induction rx as [|c rx IH]; intros w H; simpl; [exact H|].
  apply IH, read_byte_well_formed, H.
Qed.

Lemma processSerialData_app (rx1 rx2 : list ascii) (w : State) :
  processSerialData now (rx1 ++ rx2) w
    = processSerialData now rx2 (processSerialData now rx1 w).
Proof.
  revert w; induction rx1 as [|c rx1 IH]; intros w; simpl; [reflexivity|].
  apply IH.
Qed.

(** Reading a byte depends on the buffer only through its live prefix. *)
Lemma read_byte_observe (c : ascii) (w1 w2 : State) :
  well_formed w1 -> well_formed w2 -> observe w1 = observe w2 ->
  observe (read_byte now c w1) = observe (read_byte now c w2).
Proof.
  unfold well_formed, SERIAL_BUFFER_SIZE.
  destruct w1 as [m1 b1 i1 l1 t1], w2 as [m2 b2 i2 l2 t2].
  unfold observe; cbn [metrics serialBuffer bufferIndex lastUpdate trace].
  intros [L1 I1] [L2 I2] H. injection H as -> -> Hb -> ->.
  unfold read_byte; cbn [metrics serialBuffer bufferIndex lastUpdate trace].
  destruct (is_terminator c).
  - destruct (0 <? i2)%nat;
      [|cbn [metrics serialBuffer bufferIndex lastUpdate trace]; congruence].
    rewrite !c_str_insert_NUL by lia. rewrite Hb.
    destruct (parseMessage _ _) as [[ok m] printed].
    destruct ok; reflexivity.
  - destruct (i2 <? SERIAL_BUFFER_SIZE - 1)%nat eqn:E;
      cbn [metrics serialBuffer bufferIndex lastUpdate trace].
    + apply Nat.ltb_lt in E. unfold SERIAL_BUFFER_SIZE in E.
      rewrite !(take_S_r _ _ c) by (apply list_lookup_insert_eq; lia).
      rewrite !take_insert_ge by lia. rewrite Hb. reflexivity.
    + reflexivity.
Qed.

Lemma processSerialData_observe (rx : list ascii) (w1 w2 : State) :
  well_formed w1 -> well_formed w2 -> observe w1 = observe w2 ->
  observe (processSerialData now rx w1) = observe (processSerialData now rx w2).
Proof.
  revert w1 w2; induction rx as [|c rx IH]; intros w1 w2 W1 W2 H; simpl.
  - exact H.
  - apply IH; auto using read_byte_well_formed, read_byte_observe.
Qed.

(** Bytes that are not terminators fill the buffer while there is room. *)
Lemma processSerialData_fill (block : list ascii) (w : State) :
  no_terminator block = true ->
  (bufferIndex w + length block <= SERIAL_BUFFER_SIZE - 1)%nat ->
  let w' := processSerialData now block w in
  metrics w' = metrics w /\
  bufferIndex w' = (bufferIndex w + length block)%nat /\
  lastUpdate w' = lastUpdate w /\ trace w' = trace w.
Proof.
  revert w; induction block as [|c block IH]; intros w Hnt Hlen; simpl.
  - repeat split; lia.
  - simpl in Hnt, Hlen. apply andb_true_iff in Hnt as [Hc Hnt].
    apply negb_true_iff in Hc.
    assert (Hstep : read_byte now c w =
              {| metrics := metrics w;
                 serialBuffer := <[bufferIndex w := c]> (serialBuffer w);
                 bufferIndex := S (bufferIndex w);
                 lastUpdate := lastUpdate w; trace := trace w |}).
    { unfold read_byte. rewrite Hc.
      destruct (bufferIndex w <? SERIAL_BUFFER_SIZE - 1)%nat eqn:E;
        [reflexivity|].
      apply Nat.ltb_ge in E. unfold SERIAL_BUFFER_SIZE in *. lia. }
    rewrite Hstep.
    match goal with |- context [processSerialData now block ?w1] =>
      destruct (IH w1 Hnt) as [H1 [H2 [H3 H4]]];
        [unfold SERIAL_BUFFER_SIZE in *; simpl; lia|]
    end.
    simpl in *. repeat split; try assumption. lia.
Qed.

End TransportFacts.

(** C2, as stated, fails: when a line is longer than the buffer, the bytes
    after the 128th are collected as a line of their own and handed to the
    decoder at the terminator. Here they even decode successfully. *)
Lemma overlong_line_tail_is_decoded :
  let tail := lit "CPU:45.2,RAM:67.8,TEMP:58.5,CHK:171" in
  let line := replicate 128 "A"%char ++ tail in
  let w := processSerialData 0 (line ++ [LF]) state0 in
  (128 <= length line)%nat /\ no_terminator line = true /\
  trace w = [ Serial_println "Error: Buffer overflow";
              Call_parseMessage tail;
              Serial_println "Connection restored" ] /\
  connected (metrics w) = true /\
  cpu_usage (metrics w) = decimal_to_float 452 (-1).
Proof. vm_compute. repeat split; try reflexivity. lia. Qed.

(** When 127 bytes without a terminator are buffered and one more such byte
    arrives, the reader drops those 128 bytes, reports the overflow once,
    hands nothing to the decoder and resets the buffer; whatever follows is
    processed as if it were read with an empty buffer. *)
Lemma processSerialData_overflow_block
    (now : Z) (w : State) (block : list ascii) (c : ascii) (rest : list ascii) :
  well_formed w -> bufferIndex w = 0%nat ->
  length block = 127%nat -> no_terminator (block ++ [c]) = true ->
  trace (processSerialData now (block ++ [c]) w)
    = trace w ++ [Serial_println "Error: Buffer overflow"] /\
  bufferIndex (processSerialData now (block ++ [c]) w) = 0%nat /\
  metrics (processSerialData now (block ++ [c]) w) = metrics w /\
  observe (processSerialData now (block ++ c :: rest) w)
    = observe (processSerialData now rest
                 (emit (Serial_println "Error: Buffer overflow") w)).
Proof.
  intros W I0 Hlen Hnt.
  unfold no_terminator in Hnt. rewrite forallb_app in Hnt.
  apply andb_true_iff in Hnt as [Hb Hc]. simpl in Hc.
  rewrite andb_true_r in Hc. apply negb_true_iff in Hc.
  destruct (processSerialData_fill now block w Hb) as [F1 [F2 [F3 F4]]].
  { rewrite I0, Hlen. unfold SERIAL_BUFFER_SIZE. lia. }
  pose proof (processSerialData_well_formed now block w W) as W'.
  set (w1 := processSerialData now block w) in *.
  assert (Hover : read_byte now c w1 =
            {| metrics := metrics w1; serialBuffer := serialBuffer w1;
               bufferIndex := 0; lastUpdate := lastUpdate w1;
               trace := trace w1 ++ [Serial_println "Error: Buffer overflow"] |}).
  { unfold read_byte. rewrite Hc, F2, I0, Hlen. reflexivity. }
  assert (Hone : processSerialData now (block ++ [c]) w = read_byte now c w1).
  { rewrite processSerialData_app. reflexivity. }
  rewrite Hone, Hover. simpl. rewrite F1, F4.
  repeat match goal with |- _ /\ _ => split end; try reflexivity.
  replace (block ++ c :: rest) with ((block ++ [c]) ++ rest)
    by (rewrite <- app_assoc; reflexivity).
  rewrite processSerialData_app, Hone, Hover.
  apply processSerialData_observe.
  - destruct W' as [L _]. split; [exact L | unfold SERIAL_BUFFER_SIZE; simpl; lia].
  - destruct W as [L HI]. split; [exact L | exact HI].
  - unfold observe, emit. simpl. rewrite F1, F3, F4, I0. reflexivity.
Qed.

(** * Liveness monitor, power manager and the loop *)

Section ClockFacts.

Lemma ulong_sub_exact (a b : Z) :
  0 <= b <= a -> a < 2 ^ 32 -> ulong_sub a b = a - b.
Proof. intros H1 H2. unfold ulong_sub. apply Z.mod_small. lia. Qed.

Lemma ulong_sub_same (a : Z) : ulong_sub a a = 0.
Proof. unfold ulong_sub. rewrite Z.sub_diag. reflexivity. Qed.

End ClockFacts.

Section TraceFacts.

Lemma count_lost_app (a b : list Event) :
  count_lost (a ++ b) = (count_lost a + count_lost b)%nat.
Proof. unfold count_lost. rewrite List.filter_app, length_app. reflexivity. Qed.

Lemma count_restored_app (a b : list Event) :
  count_restored (a ++ b) = (count_restored a + count_restored b)%nat.
Proof.
  unfold count_restored. rewrite List.filter_app, length_app. reflexivity.
Qed.

Lemma no_ui_update_app (a b : list Event) :
  no_ui_update (a ++ b) = no_ui_update a && no_ui_update b.
Proof. apply forallb_app. Qed.

(** The decoder prints error lines only. *)
Lemma parseMessage_printed (message : cstr) (m : SystemMetrics) :
  let ev := snd (parseMessage message m) in
  count_lost ev = 0%nat /\ count_restored ev = 0%nat /\ no_ui_update ev = true.
Proof.
  unfold parseMessage.
  destruct (validateChecksum message); cbn [negb];
    [|repeat split; reflexivity].
  destruct (strstr message (lit "CPU:")); [|repeat split; reflexivity].
  destruct (strstr message (lit "RAM:")); [|repeat split; reflexivity].
  destruct (strstr message (lit "TEMP:")); [|repeat split; reflexivity].
  destruct (out_of_range _); repeat split; reflexivity.
Qed.

Lemma balanced_refl (w : State) : balanced w w.
Proof. exists []. rewrite app_nil_r. split; reflexivity. Qed.

Lemma balanced_trans (w1 w2 w3 : State) :
  balanced w1 w2 -> balanced w2 w3 -> balanced w1 w3.
Proof.
  intros [e1 [T1 C1]] [e2 [T2 C2]]. exists (e1 ++ e2). split.
  - rewrite T2, T1, app_assoc. reflexivity.
  - rewrite count_lost_app, count_restored_app. lia.
Qed.

End TraceFacts.

Section ReaderSummary.

Variable now : Z.

Lemma rx_summary_refl (w : State) : rx_summary now w w.
Proof.
  exists []. rewrite app_nil_r. repeat split; auto.
Qed.

Lemma rx_summary_trans (w1 w2 w3 : State) :
  rx_summary now w1 w2 -> rx_summary now w2 w3 -> rx_summary now w1 w3.
Proof.
  intros [e1 [T1 [U1 [L1 [R1 [P1 [D1 [S1 K1]]]]]]]]
         [e2 [T2 [U2 [L2 [R2 [P2 [D2 [S2 K2]]]]]]]].
  exists (e1 ++ e2).
  repeat match goal with |- _ /\ _ => split end.
  - rewrite T2, T1, app_assoc. reflexivity.
  - rewrite no_ui_update_app, U1, U2. reflexivity.
  - rewrite count_lost_app, L1, L2. reflexivity.
  - rewrite count_restored_app. lia.
  - congruence.
  - congruence.
  - congruence.
  - destruct K2 as [[A B]|[A B]]; [|right; auto].
    destruct K1 as [[A1 B1]|[A1 B1]]; [left|right]; split; congruence.
Qed.

Lemma read_byte_summary (c : ascii) (w : State) :
  rx_summary now w (read_byte now c w).
Proof.
  unfold read_byte.
  destruct (is_terminator c).
  - destruct (0 <? bufferIndex w)%nat; [|apply rx_summary_refl].
    pose proof (parseMessage_link_fields
                  (c_str (<[bufferIndex w := NUL]> (serialBuffer w)))
                  (metrics w)) as HL.
    pose proof (parseMessage_printed
                  (c_str (<[bufferIndex w := NUL]> (serialBuffer w)))
                  (metrics w)) as HP.
    destruct (parseMessage _ _) as [[ok m] printed].
    cbn [fst snd] in HL, HP. destruct HP as [PL [PR PU]].
    unfold link_fields in HL. injection HL as H1 H2 H3 H4.
    set (call := Call_parseMessage
                   (c_str (<[bufferIndex w := NUL]> (serialBuffer w)))) in *.
    destruct ok.
    + destruct (connected m) eqn:Ec; cbn [negb];
        [exists ([call] ++ printed ++ [])
        |exists ([call] ++ printed ++ [Serial_println "Connection restored"])];
        cbn [metrics trace lastUpdate]; simpl_fields;
        rewrite !no_ui_update_app, !count_lost_app, !count_restored_app,
                PU, PL, PR, <- H2;
        repeat match goal with |- _ /\ _ => split end;
        try reflexivity; try assumption; try (right; split; reflexivity).
    + exists ([call] ++ printed).
      cbn [metrics trace lastUpdate].
      rewrite !no_ui_update_app, !count_lost_app, !count_restored_app,
              PU, PL, PR, H2.
      repeat match goal with |- _ /\ _ => split end;
        try reflexivity; try assumption.
      left; split; [reflexivity | assumption].
  - destruct (bufferIndex w <? SERIAL_BUFFER_SIZE - 1)%nat.
    + exists []. cbn [metrics trace lastUpdate]. rewrite app_nil_r.
      repeat split; auto.
    + exists [Serial_println "Error: Buffer overflow"].
      cbn [metrics trace lastUpdate]. repeat split; auto.
Qed.

Lemma processSerialData_summary (rx : list ascii) (w : State) :
  rx_summary now w (processSerialData now rx w).
Proof.
  revert w; induction rx as [|c rx IH]; intros w; simpl.
  - apply rx_summary_refl.
  - eapply rx_summary_trans; [apply read_byte_summary | apply IH].
Qed.

End ReaderSummary.

Section LoopFacts.

Lemma checkConnectionStatus_summary (now : Z) (m : SystemMetrics) :
  let m' := fst (checkConnectionStatus now m) in
  let ev := snd (checkConnectionStatus now m) in
  (count_lost ev + b2n (connected m'))%nat = b2n (connected m) /\
  count_restored ev = 0%nat /\
  power_save_mode m' = power_save_mode m /\
  last_update m' = last_update m.
Proof.
  unfold checkConnectionStatus.
  destruct (connected m) eqn:E;
    [|cbn [fst snd]; rewrite E; repeat split; reflexivity].
  destruct (DATA_TIMEOUT_MS <? ulong_sub now (last_update m));
    cbn [fst snd]; simpl_fields; try rewrite E; repeat split; reflexivity.
Qed.

Lemma managePowerSaving_summary (now : Z) (m : SystemMetrics) :
  let m' := fst (managePowerSaving now m) in
  let ev := snd (managePowerSaving now m) in
  connected m' = connected m /\ disconnect_time m' = disconnect_time m /\
  last_update m' = last_update m /\
  count_lost ev = 0%nat /\ count_restored ev = 0%nat.
Proof.
  unfold managePowerSaving, enterPowerSaveMode, exitPowerSaveMode.
  destruct (connected m) eqn:E; cbn [negb].
  - destruct (power_save_mode m); cbn [negb fst snd]; simpl_fields;
      rewrite ?E; repeat split; reflexivity.
  - destruct (POWER_SAVE_DELAY_MS <? ulong_sub now (disconnect_time m));
      destruct (power_save_mode m); cbn [negb andb fst snd]; simpl_fields;
      rewrite ?E; repeat split; reflexivity.
Qed.

Variable t : Readings.

(** One iteration of the loop, step by step. *)
Lemma loop_shape (rx : list ascii) (w : State) :
  let w1 := processSerialData (at_serial t) rx w in
  let c := checkConnectionStatus (at_check t) (metrics w1) in
  let p := managePowerSaving (at_power t) (fst c) in
  metrics (loop t rx w) = fst p /\
  exists shown,
    (shown = [] \/ shown = ui_updates (fst p)) /\
    trace (loop t rx w)
      = trace w1 ++ snd c ++ snd p ++ shown
        ++ [Timer_Loop; delay (if power_save_mode (fst p) then 100 else 5)].
Proof.
  cbv zeta. unfold loop, on_metrics, updateDisplay, emit.
  destruct (checkConnectionStatus (at_check t)
              (metrics (processSerialData (at_serial t) rx w))) as [m2 e2].
  cbn [metrics serialBuffer bufferIndex lastUpdate trace fst snd].
  destruct (managePowerSaving (at_power t) m2) as [m3 e3].
  cbn [metrics serialBuffer bufferIndex lastUpdate trace fst snd].
  destruct (ulong_sub (at_display t)
              (lastUpdate (processSerialData (at_serial t) rx w)) <? 500);
    cbn [metrics serialBuffer bufferIndex lastUpdate trace fst snd].
  - split; [reflexivity|]. exists []. split; [left; reflexivity|].
    rewrite <- !app_assoc. reflexivity.
  - split; [reflexivity|]. exists (ui_updates m3).
    split; [right; reflexivity|]. rewrite <- !app_assoc. reflexivity.
Qed.

Lemma ui_updates_counts (m : SystemMetrics) :
  count_lost (ui_updates m) = 0%nat /\ count_restored (ui_updates m) = 0%nat.
Proof. split; reflexivity. Qed.

Lemma loop_balanced (rx : list ascii) (w : State) :
  balanced w (loop t rx w).
Proof.
  destruct (loop_shape rx w) as [M [shown [Hs T]]].
  destruct (processSerialData_summary (at_serial t) rx w)
    as [e1 [T1 [_ [L1 [R1 _]]]]].
  set (w1 := processSerialData (at_serial t) rx w) in *.
  destruct (checkConnectionStatus_summary (at_check t) (metrics w1))
    as [C1 [C2 _]].
  set (c := checkConnectionStatus (at_check t) (metrics w1)) in *.
  destruct (managePowerSaving_summary (at_power t) (fst c))
    as [P1 [_ [_ [P2 P3]]]].
  set (p := managePowerSaving (at_power t) (fst c)) in *.
  cbv zeta in *.
  exists (e1 ++ snd c ++ snd p ++ shown
          ++ [Timer_Loop;
              delay (if power_save_mode (fst p) then 100 else 5)]).
  split.
  - rewrite T, T1, <- !app_assoc. reflexivity.
  - rewrite M, P1.
    rewrite !count_lost_app, !count_restored_app, L1, C2, P2, P3.
    assert (count_lost shown = 0%nat /\ count_restored shown = 0%nat) as [S1 S2].
    { destruct Hs as [->| ->]; [split; reflexivity | apply ui_updates_counts]. }
    rewrite S1, S2.
    change (count_lost [Timer_Loop; delay ?x]) with 0%nat.
    change (count_restored [Timer_Loop; delay ?x]) with 0%nat.
    lia.
Qed.

End LoopFacts.

Lemma run_balanced (steps : list (Readings * list ascii)) (w : State) :
  balanced w (run steps w).
Proof.
  revert w; induction steps as [|[t rx] steps IH]; intros w; simpl.
  - apply balanced_refl.
  - eapply balanced_trans; [apply loop_balanced | apply IH].
Qed.

(** ** The liveness monitor *)

(** C6. The link starts Disconnected. [checkConnectionStatus] takes it from
    Connected to Disconnected exactly when it is Connected and the time since
    [last_update] (the stamp of the last successful decode) exceeds the
    5000 ms timeout; at that transition [disconnect_time] becomes [now] and
    the loss is reported once; in every other case, in particular while
    already Disconnected, the call does nothing. Over any run, the disconnect
    reports are in balance with the reconnects: the flag goes to false once
    per disconnect episode. *)
Theorem liveness_monitor :
  connected metrics0 = false /\ DATA_TIMEOUT_MS = 5000 /\
  (forall now m,
     let m' := fst (checkConnectionStatus now m) in
     ((connected m = true /\ connected m' = false) <->
      (connected m = true /\ DATA_TIMEOUT_MS < ulong_sub now (last_update m))) /\
     (connected m = true -> connected m' = false ->
      checkConnectionStatus now m
        = (set_disconnect_time now (set_connected false m),
           [Serial_println "Connection lost - no data received"]) /\
      disconnect_time m' = now) /\
     (connected m = false -> checkConnectionStatus now m = (m, [])) /\
     (connected m' = connected m -> checkConnectionStatus now m = (m, [])) /\
     (0 <= last_update m <= now -> now < 2 ^ 32 ->
      ulong_sub now (last_update m) = now - last_update m)) /\
  (forall steps w, balanced w (run steps w)).
Proof.
  split; [reflexivity|]. split; [reflexivity|]. split; [|exact run_balanced].
  intros now m. cbv zeta. unfold checkConnectionStatus.
  destruct (connected m) eqn:E.
  - destruct (DATA_TIMEOUT_MS <? ulong_sub now (last_update m)) eqn:T;
      cbn [fst snd]; simpl_fields; rewrite ?E.
    + apply Z.ltb_lt in T. split; [|split; [|split; [|split]]].
      * split; intros _; split; [reflexivity | exact T | reflexivity..].
      * intros _ _. split; reflexivity.
      * discriminate.
      * discriminate.
      * intros; apply ulong_sub_exact; assumption.
    + apply Z.ltb_ge in T. split; [|split; [|split; [|split]]].
      * split; [intros [_ H]; discriminate | intros [_ H]; lia].
      * discriminate.
      * discriminate.
      * reflexivity.
      * intros; apply ulong_sub_exact; assumption.
  - cbn [fst snd]; rewrite ?E. split; [|split; [|split; [|split]]].
    + split; intros [H _]; discriminate.
    + discriminate.
    + reflexivity.
    + reflexivity.
    + intros; apply ulong_sub_exact; assumption.
Qed.

Lemma liveness_monitor_witness :
  let m := set_connected true (set_last_update 0 metrics0) in
  checkConnectionStatus 5001 m
    = (set_disconnect_time 5001 (set_connected false m),
       [Serial_println "Connection lost - no data received"]) /\
  disconnect_time (fst (checkConnectionStatus 5001 m)) = 5001.
Proof.
  intros m.
  destruct liveness_monitor as [_ [_ [H _]]].
  destruct (H 5001 m) as [_ [H2 _]].
  apply H2; reflexivity.
Defined.

(** ** The power manager *)

Lemma managePowerSaving_enters (now : Z) (m : SystemMetrics) :
  connected m = false -> power_save_mode m = false ->
  POWER_SAVE_DELAY_MS < ulong_sub now (disconnect_time m) ->
  managePowerSaving now m = (set_power_save_mode true m, enter_actions).
Proof.
  intros C P T. apply Z.ltb_lt in T.
  unfold managePowerSaving, enterPowerSaveMode. rewrite C, P, T. reflexivity.
Qed.

Lemma managePowerSaving_waits (now : Z) (m : SystemMetrics) :
  connected m = false ->
  ulong_sub now (disconnect_time m) <= POWER_SAVE_DELAY_MS ->
  managePowerSaving now m = (m, []).
Proof.
  intros C T. apply Z.ltb_ge in T.
  unfold managePowerSaving. rewrite C, T. reflexivity.
Qed.

Lemma managePowerSaving_exits (now : Z) (m : SystemMetrics) :
  connected m = true -> power_save_mode m = true ->
  managePowerSaving now m = (set_power_save_mode false m, exit_actions).
Proof.
  intros C P. unfold managePowerSaving, exitPowerSaveMode. rewrite C, P.
  reflexivity.
Qed.

(** The iteration in which a valid message arrives during power-save. *)
Lemma loop_reconnect (t : Readings) (rx : list ascii) (w : State) :
  power_save_mode (metrics w) = true ->
  connected (metrics w) = false ->
  connected (metrics (processSerialData (at_serial t) rx w)) = true ->
  ulong_sub (at_check t) (at_serial t) <= DATA_TIMEOUT_MS ->
  let w' := loop t rx w in
  power_save_mode (metrics w') = false /\ connected (metrics w') = true /\
  exists received shown,
    trace (processSerialData (at_serial t) rx w) = trace w ++ received /\
    no_ui_update received = true /\
    (shown = [] \/ shown = ui_updates (metrics w')) /\
    trace w' = trace w ++ received ++ exit_actions ++ shown
               ++ [Timer_Loop; delay 5].
Proof.
  intros P C C1 Hsoon. cbv zeta.
  destruct (processSerialData_summary (at_serial t) rx w)
    as [ev [T1 [U1 [_ [_ [P1 [_ [_ K]]]]]]]].
  destruct K as [[K _]|[_ K]]; [congruence|].
  destruct (loop_shape t rx w) as [M [shown [Hs T]]]. cbv zeta in *.
  set (m1 := metrics (processSerialData (at_serial t) rx w)) in *.
  assert (Hc : checkConnectionStatus (at_check t) m1 = (m1, [])).
  { unfold checkConnectionStatus. rewrite C1, K.
    apply Z.ltb_ge in Hsoon. rewrite Hsoon. reflexivity. }
  rewrite Hc in *. cbn [fst snd] in *.
  rewrite (managePowerSaving_exits (at_power t) m1 C1) in * by congruence.
  cbn [fst snd] in *. rewrite M. simpl_fields.
  split; [reflexivity|]. split; [exact C1|].
  exists ev, shown.
  split; [exact T1|]. split; [exact U1|]. split; [exact Hs|].
  rewrite T, T1, <- !app_assoc. reflexivity.
Qed.

(** How an iteration can end disconnected: either the link was disconnected
    before, no message was accepted and [disconnect_time] is unchanged, or
    the liveness monitor disconnected it in this iteration and
    [disconnect_time] is its clock reading. *)
Lemma loop_ends_disconnected (t : Readings) (rx : list ascii) (w : State) :
  connected (metrics (loop t rx w)) = false ->
  (connected (metrics w) = false /\
   connected (metrics (processSerialData (at_serial t) rx w)) = false /\
   disconnect_time (metrics (loop t rx w)) = disconnect_time (metrics w)) \/
  disconnect_time (metrics (loop t rx w)) = at_check t.
Proof.
  intros H.
  destruct (loop_shape t rx w) as [M _]. cbv zeta in M.
  destruct (processSerialData_summary (at_serial t) rx w)
    as [ev [_ [_ [_ [R [_ [D _]]]]]]].
  set (m1 := metrics (processSerialData (at_serial t) rx w)) in *.
  destruct (managePowerSaving_summary (at_power t)
              (fst (checkConnectionStatus (at_check t) m1)))
    as [P1 [P2 _]].
  rewrite M in *. rewrite P1 in H. rewrite P2.
  unfold checkConnectionStatus in *.
  destruct (connected m1) eqn:C1.
  - destruct (DATA_TIMEOUT_MS <? ulong_sub (at_check t) (last_update m1));
      cbn [fst] in *; simpl_fields; [right; reflexivity | congruence].
  - cbn [fst] in *. left.
    destruct (connected (metrics w)); simpl in R; [lia|].
    repeat split; assumption.
Qed.

(** C7. Power-save is entered exactly when, with power-save off, the link is
    disconnected and more than 10000 ms have passed since [disconnect_time];
    while the link is connected it is never on after the manager has run, so
    a reconnection inside the window prevents entry. When a valid message
    arrives during power-save, the same loop iteration ends with power-save
    off: backlight and CPU frequency are restored after the serial input is
    processed and before any display update of that iteration, and the
    iteration ends with the short delay. (The liveness check of that
    iteration runs within the timeout after the message was stamped.) The
    timer restarts with every disconnect: an iteration that ends
    disconnected either continues a disconnected state in which no message
    was accepted, or has [disconnect_time] freshly set by the liveness
    monitor. *)
Theorem power_manager_timing :
  POWER_SAVE_DELAY_MS = 10000 /\
  (forall now m,
     power_save_mode m = false ->
     (power_save_mode (fst (managePowerSaving now m)) = true <->
      connected m = false /\
      POWER_SAVE_DELAY_MS < ulong_sub now (disconnect_time m))) /\
  (forall now m,
     0 <= disconnect_time m <= now -> now < 2 ^ 32 ->
     ulong_sub now (disconnect_time m) = now - disconnect_time m) /\
  (forall now m,
     connected m = true ->
     power_save_mode (fst (managePowerSaving now m)) = false) /\
  (forall t rx w,
     power_save_mode (metrics w) = true ->
     connected (metrics w) = false ->
     connected (metrics (processSerialData (at_serial t) rx w)) = true ->
     ulong_sub (at_check t) (at_serial t) <= DATA_TIMEOUT_MS ->
     let w' := loop t rx w in
     power_save_mode (metrics w') = false /\ connected (metrics w') = true /\
     exists received shown,
       trace (processSerialData (at_serial t) rx w) = trace w ++ received /\
       no_ui_update received = true /\
       (shown = [] \/ shown = ui_updates (metrics w')) /\
       trace w' = trace w ++ received ++ exit_actions ++ shown
                  ++ [Timer_Loop; delay 5]) /\
  (forall t rx w,
     connected (metrics (loop t rx w)) = false ->
     (connected (metrics w) = false /\
      connected (metrics (processSerialData (at_serial t) rx w)) = false /\
      disconnect_time (metrics (loop t rx w)) = disconnect_time (metrics w)) \/
     disconnect_time (metrics (loop t rx w)) = at_check t).
Proof.
  split; [reflexivity|]. split; [|split; [|split; [|split]]].
  - intros now m P. split.
    + intros H. unfold managePowerSaving, enterPowerSaveMode in H.
      rewrite P in H. destruct (connected m); cbn [negb] in H.
      * cbn [fst] in H. congruence.
      * destruct (POWER_SAVE_DELAY_MS <? ulong_sub now (disconnect_time m))
          eqn:T; cbn [andb fst] in H; [|congruence].
        apply Z.ltb_lt in T. split; [reflexivity | exact T].
    + intros [C T]. rewrite (managePowerSaving_enters now m C P T).
      reflexivity.
  - intros now m H1 H2. apply ulong_sub_exact; assumption.
  - intros now m C. unfold managePowerSaving, exitPowerSaveMode. rewrite C.
    cbn [negb]. destruct (power_save_mode m) eqn:P; cbn [negb fst].
    + reflexivity.
    + exact P.
  - exact loop_reconnect.
  - exact loop_ends_disconnected.
Qed.

Lemma power_manager_timing_witness :
  let sleeping := run (idle [at_time 10001]) state0 in
  let t := {| at_serial := 20000; at_check := 20001;
              at_power := 20001; at_display := 20002 |} in
  let w' := loop t (lit "CPU:45.2,RAM:67.8,TEMP:58.5,CHK:171" ++ [LF]) sleeping in
  power_save_mode (metrics sleeping) = true /\
  power_save_mode (metrics w') = false /\ connected (metrics w') = true.
Proof.
  intros sleeping t w'.
  destruct power_manager_timing as [_ [_ [_ [_ [H _]]]]].
  destruct (H t (lit "CPU:45.2,RAM:67.8,TEMP:58.5,CHK:171" ++ [LF]) sleeping)
    as [A [B _]]; try reflexivity.
  - vm_compute. discriminate.
  - split; [reflexivity|]. split; [exact A | exact B].
Defined.

(** ** Power-save after boot *)

Lemma idle_run_before_delay (early : list Readings) (w : State) :
  Forall (fun t => 0 <= at_power t <= POWER_SAVE_DELAY_MS) early ->
  metrics w = metrics0 -> count_lost (trace w) = 0%nat ->
  metrics (run (idle early) w) = metrics0 /\
  count_lost (trace (run (idle early) w)) = 0%nat.
Proof.
  revert w; induction early as [|t early IH]; intros w Hall Hm Hl; simpl.
  - split; assumption.
  - inversion Hall as [|? ? Ht Hall']; subst.
    destruct (loop_shape t [] w) as [M [shown [Hs T]]]. cbv zeta in *.
    simpl processSerialData in *. rewrite Hm in *.
    assert (Hc : checkConnectionStatus (at_check t) metrics0 = (metrics0, []))
      by reflexivity.
    rewrite Hc in *. cbn [fst snd] in *.
    assert (Hp : managePowerSaving (at_power t) metrics0 = (metrics0, [])).
    { apply managePowerSaving_waits; [reflexivity|].
      change (disconnect_time metrics0) with 0.
      rewrite ulong_sub_exact; unfold POWER_SAVE_DELAY_MS in *; lia. }
    rewrite Hp in *. cbn [fst snd] in *.
    apply IH; [exact Hall' | exact M |].
    rewrite T, !count_lost_app, Hl.
    destruct Hs as [->| ->]; reflexivity.
Qed.

(** C8. From the startup state (disconnected, [disconnect_time] 0) and with
    no byte ever received, power-save is off as long as the clock reads at
    most 10000 ms and is entered in the first iteration in which the power
    manager reads more, although the liveness monitor never reported a
    disconnect and never wrote [disconnect_time]. *)
Theorem startup_enters_power_save (early : list Readings) (t : Readings) :
  Forall (fun t => 0 <= at_power t <= POWER_SAVE_DELAY_MS) early ->
  POWER_SAVE_DELAY_MS < at_power t < 2 ^ 32 ->
  let w1 := run (idle early) state0 in
  let w2 := loop t [] w1 in
  metrics w1 = metrics0 /\ count_lost (trace w1) = 0%nat /\
  metrics w2 = set_power_save_mode true metrics0 /\
  power_save_mode (metrics w2) = true /\ connected (metrics w2) = false /\
  disconnect_time (metrics w2) = 0 /\ last_update (metrics w2) = 0 /\
  count_lost (trace w2) = 0%nat /\
  exists shown,
    (shown = [] \/ shown = ui_updates (metrics w2)) /\
    trace w2 = trace w1 ++ enter_actions ++ shown ++ [Timer_Loop; delay 100].
Proof.
  intros Hall Hnow. cbv zeta.
  destruct (idle_run_before_delay early state0 Hall eq_refl eq_refl) as [M1 L1].
  set (w1 := run (idle early) state0) in *.
  destruct (loop_shape t [] w1) as [M [shown [Hs T]]]. cbv zeta in *.
  simpl processSerialData in *. rewrite M1 in *.
  assert (Hc : checkConnectionStatus (at_check t) metrics0 = (metrics0, []))
    by reflexivity.
  rewrite Hc in *. cbn [fst snd] in *.
  assert (Hp : managePowerSaving (at_power t) metrics0
               = (set_power_save_mode true metrics0, enter_actions)).
  { apply managePowerSaving_enters; try reflexivity.
    change (disconnect_time metrics0) with 0.
    rewrite ulong_sub_exact; unfold POWER_SAVE_DELAY_MS in *; lia. }
  rewrite Hp in *. cbn [fst snd] in *.
  split; [reflexivity|]. split; [exact L1|]. split; [exact M|].
  rewrite M. simpl_fields.
  repeat match goal with |- _ /\ _ => split end; try reflexivity.
  - rewrite T, !count_lost_app, L1. destruct Hs as [->| ->]; reflexivity.
  - exists shown. split; [exact Hs|]. rewrite T. reflexivity.
Qed.

Lemma startup_enters_power_save_witness :
  let w1 := run (idle [at_time 0; at_time 5000; at_time 10000]) state0 in
  let w2 := loop (at_time 10001) [] w1 in
  metrics w1 = metrics0 /\
  power_save_mode (metrics w2) = true /\ disconnect_time (metrics w2) = 0 /\
  count_lost (trace w2) = 0%nat.
Proof.
  intros w1 w2.
  destruct (startup_enters_power_save
              [at_time 0; at_time 5000; at_time 10000] (at_time 10001))
    as [A [_ [_ [B [_ [C [_ [D _]]]]]]]].
  - repeat constructor; unfold POWER_SAVE_DELAY_MS; simpl; lia.
  - unfold POWER_SAVE_DELAY_MS; simpl; lia.
  - repeat split; assumption.
Defined.

(** * Further properties of the transport reader *)

Section ReaderFacts.

Variable now : Z.

Lemma read_byte_store (c : ascii) (w : State) :
  is_terminator c = false ->
  (bufferIndex w < SERIAL_BUFFER_SIZE - 1)%nat ->
  read_byte now c w =
    {| metrics := metrics w;
       serialBuffer := <[bufferIndex w := c]> (serialBuffer w);
       bufferIndex := S (bufferIndex w);
       lastUpdate := lastUpdate w; trace := trace w |}.
Proof.
  intros Hc Hi. unfold read_byte. rewrite Hc.
  apply Nat.ltb_lt in Hi. rewrite Hi. reflexivity.
Qed.

(** The bytes stored are the bytes read, in order. *)
Lemma processSerialData_contents (block : list ascii) (w : State) :
  no_terminator block = true ->
  (bufferIndex w + length block <= SERIAL_BUFFER_SIZE - 1)%nat ->
  length (serialBuffer w) = SERIAL_BUFFER_SIZE ->
  take (bufferIndex w + length block)
       (serialBuffer (processSerialData now block w))
    = take (bufferIndex w) (serialBuffer w) ++ block.
Proof.
  revert w; induction block as [|c block IH]; intros w Hnt Hlen HL.
  - simpl. rewrite Nat.add_0_r, app_nil_r. reflexivity.
  - simpl in Hnt, Hlen. apply andb_true_iff in Hnt as [Hc Hnt].
    apply negb_true_iff in Hc. unfold SERIAL_BUFFER_SIZE in *.
    simpl processSerialData.
    rewrite (read_byte_store c w Hc) by (unfold SERIAL_BUFFER_SIZE; lia).
    match goal with |- context [processSerialData now block ?w1] =>
      pose proof (IH w1 Hnt) as H
    end.
    cbn [bufferIndex serialBuffer] in H.
    rewrite length_insert in H.
    replace (bufferIndex w + length (c :: block))%nat
      with (S (bufferIndex w) + length block)%nat by (simpl; lia).
    rewrite H by (simpl; lia).
    rewrite (take_S_r _ _ c) by (apply list_lookup_insert_eq; lia).
    rewrite take_insert_ge by lia. rewrite <- app_assoc. reflexivity.
Qed.

Lemma c_str_no_NUL (l : list ascii) : no_NUL l = true -> c_str l = l.
Proof.
  induction l as [|c l IH]; simpl; [reflexivity|].
  rewrite andb_true_iff, negb_true_iff. intros [-> H]. f_equal. apply IH, H.
Qed.

Lemma read_byte_terminator_index (c : ascii) (w : State) :
  is_terminator c = true -> bufferIndex (read_byte now c w) = 0%nat.
Proof.
  intros Hc. unfold read_byte. rewrite Hc.
  destruct (0 <? bufferIndex w)%nat eqn:E.
  - destruct (parseMessage _ _) as [[ok m] printed]. destruct ok; reflexivity.
  - apply Nat.ltb_ge in E. lia.
Qed.

Lemma read_byte_blank (c : ascii) (w : State) :
  is_terminator c = true -> bufferIndex w = 0%nat -> read_byte now c w = w.
Proof. intros Hc Hi. unfold read_byte. rewrite Hc, Hi. reflexivity. Qed.

End ReaderFacts.

(** The reader's state after a complete line. *)
Lemma processSerialData_line
    (now : Z) (w : State) (line : list ascii) (c : ascii) :
  well_formed w -> bufferIndex w = 0%nat ->
  (1 <= length line <= 127)%nat ->
  no_terminator line = true -> is_terminator c = true ->
  let w' := processSerialData now (line ++ [c]) w in
  let r := parseMessage (c_str line) (metrics w) in
  bufferIndex w' = 0%nat /\ lastUpdate w' = lastUpdate w /\
  metrics w' = (if fst (fst r)
                then set_connected true (set_last_update now (snd (fst r)))
                else snd (fst r)) /\
  trace w' = trace w ++ Call_parseMessage (c_str line) :: snd r
             ++ (if fst (fst r) && negb (connected (metrics w))
                 then [Serial_println "Connection restored"] else []).
Proof.
  intros [HL HI] I0 Hlen Hnt Hc. cbv zeta.
  destruct (processSerialData_fill now line w Hnt) as [F1 [F2 [F3 F4]]].
  { rewrite I0. unfold SERIAL_BUFFER_SIZE. lia. }
  pose proof (processSerialData_contents now line w Hnt) as Hbuf.
  rewrite I0 in Hbuf, F2. simpl in Hbuf, F2.
  specialize (Hbuf ltac:(unfold SERIAL_BUFFER_SIZE; lia) HL).
  pose proof (processSerialData_well_formed now line w (conj HL HI)) as [HL1 _].
  rewrite processSerialData_app.
  set (w1 := processSerialData now line w) in *.
  simpl processSerialData. unfold read_byte. rewrite Hc.
  assert (Hpos : (0 <? bufferIndex w1)%nat = true)
    by (apply Nat.ltb_lt; lia).
  rewrite Hpos.
  rewrite c_str_insert_NUL by (rewrite HL1; unfold SERIAL_BUFFER_SIZE; lia).
  rewrite F2, Hbuf, F1.
  pose proof (parseMessage_link_fields (c_str line) (metrics w)) as HLF.
  destruct (parseMessage (c_str line) (metrics w)) as [[ok m] printed].
  cbn [fst snd] in *. unfold link_fields in HLF.
  injection HLF as _ Hconn _ _.
  destruct ok; cbn [metrics bufferIndex lastUpdate trace andb];
    rewrite ?Hconn, ?F3, ?F4, ?app_nil_r;
    repeat match goal with |- _ /\ _ => split end; reflexivity.
Qed.

(** * Lines longer than the buffer *)

Lemma no_terminator_drop (n : nat) (l : list ascii) :
  no_terminator l = true -> no_terminator (drop n l) = true.
Proof.
  revert n; induction l as [|c l IH]; intros n H.
  - destruct n; reflexivity.
  - destruct n as [|n]; [exact H|].
    simpl in H. apply andb_true_iff in H as [_ H]. apply IH, H.
Qed.

(** A line with [k] full blocks of 128 bytes behaves like what is left of
    it after those blocks, read on an empty buffer after [k] overflow
    reports. *)
Lemma processSerialData_overlong (now : Z) (k : nat) :
  forall (line rest : list ascii) (w : State),
    well_formed w -> bufferIndex w = 0%nat ->
    no_terminator line = true -> (128 * k <= length line)%nat ->
    observe (processSerialData now (line ++ rest) w)
      = observe (processSerialData now (drop (128 * k) line ++ rest)
                   (after_overflows k w)).
Proof.
  induction k as [|k IH]; intros line rest w W I0 Hnt Hlen.
  - rewrite Nat.mul_0_r. rewrite drop_0.
    apply processSerialData_observe; [exact W | exact W |].
    unfold observe, after_overflows.
    cbn [metrics serialBuffer bufferIndex lastUpdate trace replicate].
    rewrite app_nil_r. reflexivity.
  - pose proof (take_drop 127 line) as Hsplit.
    pose proof (length_drop line 127) as Hd.
    destruct (drop 127 line) as [|c' line'] eqn:E.
    { cbn [length] in Hd. lia. }
    assert (Hline' : line' = drop 128 line).
    { change line' with (drop 1 (c' :: line')). rewrite <- E.
      rewrite drop_drop. reflexivity. }
    assert (Hb : length (take 127 line) = 127%nat)
      by (rewrite length_take; lia).
    assert (Hnt2 : no_terminator (take 127 line ++ [c']) = true
                   /\ no_terminator line' = true).
    { rewrite <- Hsplit in Hnt. unfold no_terminator in *.
      rewrite forallb_app in Hnt. apply andb_true_iff in Hnt as [H1 H2].
      cbn [forallb] in H2. apply andb_true_iff in H2 as [H2 H3].
      rewrite forallb_app, H1. cbn [forallb]. rewrite H2. split; [reflexivity|exact H3]. }
    destruct Hnt2 as [Hnt1 Hnt'].
    destruct (processSerialData_overflow_block now w (take 127 line) c'
                (line' ++ rest) W I0 Hb Hnt1) as [_ [_ [_ Hobs]]].
    rewrite <- Hsplit at 1. rewrite <- app_assoc. cbn [app].
    rewrite Hobs.
    assert (W1 : well_formed (emit (Serial_println "Error: Buffer overflow") w))
      by exact W.
    rewrite (IH line' rest _ W1 I0 Hnt').
    2:{ cbn [length] in Hd. lia. }
    replace (128 * S k)%nat with (128 + 128 * k)%nat by lia.
    rewrite Hline', drop_drop.
    replace (after_overflows k (emit (Serial_println "Error: Buffer overflow") w))
      with (after_overflows (S k) w); [reflexivity|].
    unfold after_overflows, emit.
    cbn [metrics serialBuffer bufferIndex lastUpdate trace replicate].
    rewrite <- app_assoc. reflexivity.
Qed.

(** C2, amended. A line of 128 or more bytes, read with an empty buffer, is
    discarded in blocks: each time 127 bytes are buffered and a further
    non-terminator byte arrives, the reader drops those 128 bytes without
    handing them to the decoder, reports the overflow, resets the buffer and
    goes on reading, as if what follows were read on an empty buffer. So a
    line of [n] bytes gives [n / 128] overflow reports; the [n mod 128]
    bytes after the last full block, if any, are collected as a line of
    their own and handed to the decoder at the terminator (nothing is handed
    over when [n] is a multiple of 128); the buffer is empty afterwards and
    subsequent lines are read normally. *)
Theorem overflow_drops_buffered_bytes
    (now : Z) (w : State) (line : list ascii) (c : ascii) :
  well_formed w -> bufferIndex w = 0%nat ->
  (128 <= length line)%nat ->
  no_terminator line = true -> is_terminator c = true ->
  let k := (length line / 128)%nat in
  let tail := drop (128 * k) line in
  let w' := processSerialData now (line ++ [c]) w in
  let r := parseMessage (c_str tail) (metrics w) in
  let reports := replicate k (Serial_println "Error: Buffer overflow") in
  (1 <= k)%nat /\ length tail = (length line mod 128)%nat /\
  (forall rest,
     observe (processSerialData now (line ++ rest) w)
       = observe (processSerialData now (tail ++ rest) (after_overflows k w))) /\
  bufferIndex w' = 0%nat /\ lastUpdate w' = lastUpdate w /\
  (tail = [] ->
   metrics w' = metrics w /\ trace w' = trace w ++ reports) /\
  (tail <> [] ->
   metrics w' = (if fst (fst r)
                 then set_connected true (set_last_update now (snd (fst r)))
                 else snd (fst r)) /\
   trace w' = trace w ++ reports ++ Call_parseMessage (c_str tail) :: snd r
              ++ (if fst (fst r) && negb (connected (metrics w))
                  then [Serial_println "Connection restored"] else [])).
Proof.
  intros W I0 Hlen Hnt Hc. cbv zeta.
  pose proof (Nat.div_mod_eq (length line) 128) as Hdm.
  pose proof (Nat.mod_upper_bound (length line) 128 ltac:(lia)) as Hmod.
  set (k := (length line / 128)%nat) in *.
  assert (Hk : (128 * k <= length line)%nat) by lia.
  assert (Htail : length (drop (128 * k) line) = (length line mod 128)%nat)
    by (rewrite length_drop; lia).
  pose proof (fun rest => processSerialData_overlong now k line rest w W I0 Hnt Hk)
    as Hobs.
  set (tail := drop (128 * k) line) in *.
  assert (W0 : well_formed (after_overflows k w)) by exact W.
  split; [lia|]. split; [exact Htail|]. split; [exact Hobs|].
  specialize (Hobs [c]). unfold observe in Hobs.
  injection Hobs as Hm Hi _ Hl Ht.
  split; [|split; [|split]].
  - rewrite processSerialData_app. simpl.
    apply read_byte_terminator_index, Hc.
  - destruct (processSerialData_summary now (line ++ [c]) w)
      as [_ [_ [_ [_ [_ [_ [_ [L _]]]]]]]]. exact L.
  - intros E. rewrite E in Hm, Ht.
    change (processSerialData now ([] ++ [c]) (after_overflows k w))
      with (read_byte now c (after_overflows k w)) in Hm, Ht.
    rewrite (read_byte_blank now c (after_overflows k w) Hc I0) in Hm, Ht.
    split; [exact Hm | exact Ht].
  - intros E.
    assert (Hlt : (1 <= length tail <= 127)%nat).
    { destruct tail; [congruence|]. cbn [length] in *. lia. }
    destruct (processSerialData_line now (after_overflows k w) tail c W0 I0
                Hlt (no_terminator_drop _ _ Hnt) Hc) as [_ [_ [Hm' Ht']]].
    cbn [after_overflows metrics trace] in Hm', Ht'.
    rewrite Hm, Ht, Hm', Ht'. split; [reflexivity|].
    rewrite <- app_assoc. reflexivity.
Qed.

Lemma overflow_drops_buffered_bytes_witness :
  trace (processSerialData 7 (replicate 256 "A"%char ++ lit "CD" ++ [LF]) state0)
    = [ Serial_println "Error: Buffer overflow";
        Serial_println "Error: Buffer overflow";
        Call_parseMessage (lit "CD");
        Serial_println "Error: Invalid checksum" ].
Proof.
  destruct (overflow_drops_buffered_bytes 7 state0
              (replicate 256 "A"%char ++ lit "CD") LF)
    as [_ [_ [_ [_ [_ [_ H]]]]]].
  - split; [reflexivity | unfold SERIAL_BUFFER_SIZE; simpl; lia].
  - reflexivity.
  - vm_compute. lia.
  - reflexivity.
  - reflexivity.
  - destruct H as [_ T]; [vm_compute; discriminate|].
    rewrite (app_assoc (replicate 256 "A"%char) (lit "CD") [LF]).
    rewrite T. vm_compute. reflexivity.
Defined.

(** X1. A line of 1 to 127 bytes without a terminator, read with an empty
    buffer and followed by a terminator, is handed to the decoder as the C
    string of exactly those bytes (the whole line when it has no NUL). The
    record is what the decoder leaves, stamped and marked connected when the
    line is accepted; the reconnect is reported when the link was down; the
    buffer is empty again. *)
Theorem complete_line_is_decoded
    (now : Z) (w : State) (line : list ascii) (c : ascii) :
  well_formed w -> bufferIndex w = 0%nat ->
  (1 <= length line <= 127)%nat ->
  no_terminator line = true -> is_terminator c = true ->
  let w' := processSerialData now (line ++ [c]) w in
  let '(ok, m, printed) := parseMessage (c_str line) (metrics w) in
  bufferIndex w' = 0%nat /\ lastUpdate w' = lastUpdate w /\
  metrics w' = (if ok then set_connected true (set_last_update now m) else m) /\
  trace w' = trace w ++ Call_parseMessage (c_str line) :: printed
             ++ (if ok && negb (connected (metrics w))
                 then [Serial_println "Connection restored"] else []) /\
  (no_NUL line = true -> c_str line = line).
Proof.
  intros W I0 Hlen Hnt Hc. cbv zeta.
  pose proof (processSerialData_line now w line c W I0 Hlen Hnt Hc) as H.
  cbv zeta in H.
  destruct (parseMessage (c_str line) (metrics w)) as [[ok m] printed].
  cbn [fst snd] in H. destruct H as [H1 [H2 [H3 H4]]].
  repeat match goal with |- _ /\ _ => split end; try assumption.
  apply c_str_no_NUL.
Qed.

Lemma complete_line_is_decoded_witness :
  bufferIndex (processSerialData 9 (lit "CPU:1,RAM:2,TEMP:3,CHK:6" ++ [LF]) state0)
    = 0%nat.
Proof.
  pose proof (complete_line_is_decoded 9 state0
                (lit "CPU:1,RAM:2,TEMP:3,CHK:6") LF) as H.
  cbv zeta in H.
  destruct (parseMessage (c_str (lit "CPU:1,RAM:2,TEMP:3,CHK:6"))
              (metrics state0)) as [[ok m] printed].
  apply H; try reflexivity.
  - split; [reflexivity | unfold SERIAL_BUFFER_SIZE; simpl; lia].
  - simpl; lia.
Defined.

(** X2. A terminator that directly follows a terminator does nothing, so a
    line ended by CR LF is decoded once; after any terminator the buffer is
    empty. *)
Theorem blank_line_is_ignored
    (now : Z) (rx : list ascii) (c1 c2 : ascii) (w : State) :
  is_terminator c1 = true -> is_terminator c2 = true ->
  bufferIndex (processSerialData now (rx ++ [c1]) w) = 0%nat /\
  processSerialData now (rx ++ [c1; c2]) w
    = processSerialData now (rx ++ [c1]) w.
Proof.
  intros H1 H2.
  assert (I : bufferIndex (processSerialData now (rx ++ [c1]) w) = 0%nat).
  { rewrite processSerialData_app. simpl.
    apply read_byte_terminator_index, H1. }
  split; [exact I|].
  replace (rx ++ [c1; c2]) with ((rx ++ [c1]) ++ [c2])
    by (rewrite <- app_assoc; reflexivity).
  rewrite (processSerialData_app now (rx ++ [c1]) [c2]). simpl.
  apply read_byte_blank; assumption.
Qed.

Lemma blank_line_is_ignored_witness :
  processSerialData 3 (lit "abc" ++ ["013"%char; "010"%char]) state0
    = processSerialData 3 (lit "abc" ++ ["013"%char]) state0.
Proof.
  apply (blank_line_is_ignored 3 (lit "abc") "013"%char "010"%char state0);
    reflexivity.
Defined.

(** X5. How a line is split over calls of [processSerialData] does not
    matter: bytes read before the terminator are kept in the buffer, and the
    clock reading of a call that sees no terminator plays no role. *)
Theorem line_chunking
    (now1 now2 : Z) (head rest : list ascii) (w : State) :
  no_terminator head = true ->
  processSerialData now2 rest (processSerialData now1 head w)
    = processSerialData now2 (head ++ rest) w.
Proof.
  intros Hnt. rewrite processSerialData_app. f_equal.
  revert w; induction head as [|c head IH]; intros w; simpl; [reflexivity|].
  simpl in Hnt. apply andb_true_iff in Hnt as [Hc Hnt].
  apply negb_true_iff in Hc.
  rewrite (IH Hnt). f_equal. unfold read_byte. rewrite Hc. reflexivity.
Qed.

Lemma line_chunking_witness :
  processSerialData 20 (lit ":1,RAM:2,TEMP:3,CHK:6" ++ [LF])
    (processSerialData 10 (lit "CPU") state0)
  = processSerialData 20 (lit "CPU" ++ lit ":1,RAM:2,TEMP:3,CHK:6" ++ [LF]) state0.
Proof.
  apply (line_chunking 10 20 (lit "CPU")
           (lit ":1,RAM:2,TEMP:3,CHK:6" ++ [LF]) state0).
  reflexivity.
Defined.

(** * The buffer invariant *)

Lemma loop_well_formed (t : Readings) (rx : list ascii) (w : State) :
  well_formed w -> well_formed (loop t rx w).
Proof.
  intros H.
  pose proof (processSerialData_well_formed (at_serial t) rx w H) as H1.
  unfold loop, on_metrics, updateDisplay, emit.
  destruct (checkConnectionStatus _ _) as [m2 e2].
  cbn [metrics serialBuffer bufferIndex lastUpdate trace].
  destruct (managePowerSaving _ _) as [m3 e3].
  cbn [metrics serialBuffer bufferIndex lastUpdate trace].
  destruct (ulong_sub _ _ <? 500); exact H1.
Qed.

Lemma run_well_formed (steps : list (Readings * list ascii)) (w : State) :
  well_formed w -> well_formed (run steps w).
Proof.
  revert w; induction steps as [|[t rx] steps IH]; intros w H; simpl.
  - exact H.
  - apply IH, loop_well_formed, H.
Qed.

(** X3. In every state the firmware reaches from boot, also between two
    bytes of one call of [processSerialData], the buffer has its 128 cells
    and [bufferIndex] is at most 127: the two array writes,
    [serialBuffer[bufferIndex] = 0] and [serialBuffer[bufferIndex++] = c],
    stay inside the array. *)
Theorem buffer_index_stays_in_bounds
    (steps : list (Readings * list ascii)) (now : Z) (rx : list ascii) :
  let w := processSerialData now rx (run steps state0) in
  length (serialBuffer w) = 128%nat /\ (bufferIndex w <= 127)%nat.
Proof.
  cbv zeta.
  assert (W0 : well_formed state0).
  { split; [reflexivity | unfold SERIAL_BUFFER_SIZE; simpl; lia]. }
  destruct (processSerialData_well_formed now rx _
              (run_well_formed steps state0 W0)) as [HL HI].
  unfold SERIAL_BUFFER_SIZE in *. split; [exact HL | lia].
Qed.

(** * Decoding the same line again *)

Lemma SystemMetrics_ext (a b : SystemMetrics) :
  cpu_usage a = cpu_usage b -> ram_usage a = ram_usage b ->
  temperature a = temperature b -> cpu_freq_ghz a = cpu_freq_ghz b ->
  gpu_usage a = gpu_usage b -> ram_used_gb a = ram_used_gb b ->
  ram_total_gb a = ram_total_gb b -> fan_rpm a = fan_rpm b ->
  net_download_mbps a = net_download_mbps b ->
  net_upload_mbps a = net_upload_mbps b ->
  battery_percent a = battery_percent b -> power_watts a = power_watts b ->
  link_fields a = link_fields b ->
  a = b.
Proof.
  destruct a, b; unfold link_fields; simpl. intros. subst.
  match goal with H : (_, _, _, _) = (_, _, _, _) |- _ => injection H as -> -> -> -> end.
  reflexivity.
Qed.

(** The record left by a full decode does not depend on the metric fields
    of the record it started from. *)
Lemma decoded_again (message : cstr) (c r t : float) (m : SystemMetrics) :
  decoded message c r t (decoded message c r t m) = decoded message c r t m.
Proof.
  unfold decoded at 1 3. f_equal.
  destruct (decoded_required message c r t m) as [_ [_ [_ HL]]].
  apply SystemMetrics_ext; simpl_fields; try reflexivity.
  unfold link_fields in *. simpl_fields. exact HL.
Qed.

(** X4. Decoding is idempotent: decoding a line a second time, starting from
    the record the first decode left, gives the same return value, the same
    record and the same printed lines, whether the line is accepted or
    rejected. *)
Theorem parseMessage_idempotent (message : cstr) (m : SystemMetrics) :
  parseMessage message (snd (fst (parseMessage message m)))
    = parseMessage message m.
Proof.
  destruct (validateChecksum message) eqn:Hchk.
  - destruct (required_values message) as [[[c r] t]|] eqn:Hreq.
    + rewrite !(parseMessage_required_found message _ c r t Hchk Hreq).
      destruct (out_of_range (decoded message c r t m)) eqn:E; cbn [fst snd];
        rewrite decoded_again, E; reflexivity.
    + unfold required_values in Hreq. unfold parseMessage. rewrite Hchk.
      cbn [negb].
      destruct (strstr message (lit "CPU:")) as [p1|]; [|reflexivity].
      destruct (strstr message (lit "RAM:")) as [p2|]; [|reflexivity].
      destruct (strstr message (lit "TEMP:")) as [p3|]; [|reflexivity].
      discriminate.
  - rewrite !(parseMessage_no_checksum _ _ Hchk). reflexivity.
Qed.

(** * Elapsed time across the wrap of the millisecond counter *)

(** X6. The 32-bit subtraction measures elapsed time correctly across the
    wrap of [millis()]: if [d] ms (less than 2^32) have passed since the
    stamp [t0], the difference is [d] whatever [t0] is. So the link is
    declared lost exactly when more than 5000 ms have really passed since
    the last accepted message, and power-save is entered exactly when more
    than 10000 ms have really passed since the disconnect, also when the
    counter has wrapped in between. *)
Theorem elapsed_time_across_wrap (t0 d : Z) :
  0 <= t0 < 2 ^ 32 -> 0 <= d < 2 ^ 32 ->
  let now := (t0 + d) mod 2 ^ 32 in
  ulong_sub now t0 = d /\
  (forall m, connected m = true -> last_update m = t0 ->
     (connected (fst (checkConnectionStatus now m)) = false
      <-> DATA_TIMEOUT_MS < d)) /\
  (forall m, connected m = false -> power_save_mode m = false ->
     disconnect_time m = t0 ->
     (power_save_mode (fst (managePowerSaving now m)) = true
      <-> POWER_SAVE_DELAY_MS < d)).
Proof.
  intros Ht Hd. cbv zeta.
  assert (E : ulong_sub ((t0 + d) mod 2 ^ 32) t0 = d).
  { unfold ulong_sub. rewrite Zminus_mod_idemp_l.
    replace (t0 + d - t0) with d by lia. apply Z.mod_small. lia. }
  split; [exact E|]. split.
  - intros m C L. unfold checkConnectionStatus. rewrite C, L, E.
    destruct (DATA_TIMEOUT_MS <? d) eqn:T; cbn [fst]; simpl_fields.
    + apply Z.ltb_lt in T. split; auto.
    + apply Z.ltb_ge in T. rewrite C. split; [discriminate | lia].
  - intros m C P D. unfold managePowerSaving, enterPowerSaveMode.
    rewrite C, P, D, E. cbn [negb].
    destruct (POWER_SAVE_DELAY_MS <? d) eqn:T; cbn [andb fst]; simpl_fields.
    + apply Z.ltb_lt in T. split; auto.
    + apply Z.ltb_ge in T. rewrite P. split; [discriminate | lia].
Qed.

Lemma elapsed_time_across_wrap_witness :
  ulong_sub ((4294967000 + 6000) mod 2 ^ 32) 4294967000 = 6000.
Proof.
  apply (elapsed_time_across_wrap 4294967000 6000); lia.
Defined.

(** * Invariants of the power state *)

Section HardwareRequests.

Lemma fold_backlight (l : list Event) (acc : option Z) :
  List.fold_left
    (fun acc e => match e with Set_Backlight v => Some v | _ => acc end) l acc
  = match last_backlight l with Some v => Some v | None => acc end.
Proof.
  unfold last_backlight. revert acc.
  induction l as [|e l IH]; intros acc; simpl; [reflexivity|].
  rewrite IH. rewrite (IH (match e with Set_Backlight v => Some v | _ => None end)).
  destruct (List.fold_left _ l None); [reflexivity|].
  destruct e; reflexivity.
Qed.

Lemma fold_cpu_mhz (l : list Event) (acc : option Z) :
  List.fold_left
    (fun acc e => match e with setCpuFrequencyMhz v => Some v | _ => acc end)
    l acc
  = match last_cpu_mhz l with Some v => Some v | None => acc end.
Proof.
  unfold last_cpu_mhz. revert acc.
  induction l as [|e l IH]; intros acc; simpl; [reflexivity|].
  rewrite IH.
  rewrite (IH (match e with setCpuFrequencyMhz v => Some v | _ => None end)).
  destruct (List.fold_left _ l None); [reflexivity|].
  destruct e; reflexivity.
Qed.

Lemma last_backlight_app (a b : list Event) :
  last_backlight (a ++ b)
    = match last_backlight b with Some v => Some v | None => last_backlight a end.
Proof.
  unfold last_backlight at 1. rewrite List.fold_left_app.
  apply fold_backlight.
Qed.

Lemma last_cpu_mhz_app (a b : list Event) :
  last_cpu_mhz (a ++ b)
    = match last_cpu_mhz b with Some v => Some v | None => last_cpu_mhz a end.
Proof.
  unfold last_cpu_mhz at 1. rewrite List.fold_left_app.
  apply fold_cpu_mhz.
Qed.

Lemma no_hw_request_last (l : list Event) :
  no_hw_request l = true -> last_backlight l = None /\ last_cpu_mhz l = None.
Proof.
  induction l as [|e l IH]; simpl; [split; reflexivity|].
  rewrite andb_true_iff, negb_true_iff. intros [He Hl].
  destruct (IH Hl) as [B C].
  change (e :: l) with ([e] ++ l).
  rewrite last_backlight_app, last_cpu_mhz_app, B, C.
  destruct e; try discriminate He; split; reflexivity.
Qed.

Lemma no_hw_request_app (a b : list Event) :
  no_hw_request (a ++ b) = no_hw_request a && no_hw_request b.
Proof. apply forallb_app. Qed.

Lemma parseMessage_no_hw (message : cstr) (m : SystemMetrics) :
  no_hw_request (snd (parseMessage message m)) = true.
Proof.
  unfold parseMessage.
  destruct (validateChecksum message); cbn [negb]; [|reflexivity].
  destruct (strstr message (lit "CPU:")); [|reflexivity].
  destruct (strstr message (lit "RAM:")); [|reflexivity].
  destruct (strstr message (lit "TEMP:")); [|reflexivity].
  destruct (out_of_range _); reflexivity.
Qed.

(** The reader makes no request to the backlight or the clock. *)
Lemma processSerialData_no_hw (now : Z) (rx : list ascii) (w : State) :
  exists ev,
    trace (processSerialData now rx w) = trace w ++ ev /\
    no_hw_request ev = true.
Proof.
  revert w; induction rx as [|c rx IH]; intros w; simpl.
  - exists []. rewrite app_nil_r. split; reflexivity.
  - destruct (IH (read_byte now c w)) as [ev2 [T2 N2]].
    assert (exists ev1, trace (read_byte now c w) = trace w ++ ev1 /\
                        no_hw_request ev1 = true) as [ev1 [T1 N1]].
    { unfold read_byte. destruct (is_terminator c).
      - destruct (0 <? bufferIndex w)%nat;
          [|exists []; rewrite app_nil_r; split; reflexivity].
        pose proof (parseMessage_no_hw
                      (c_str (<[bufferIndex w := NUL]> (serialBuffer w)))
                      (metrics w)) as HP.
        destruct (parseMessage _ _) as [[ok m] printed]. cbn [snd] in HP.
        destruct ok; [destruct (negb (connected m))|];
          eexists; (split; [reflexivity|]);
          change (Call_parseMessage ?x :: ?l) with ([Call_parseMessage x] ++ l);
          rewrite ?no_hw_request_app, HP; reflexivity.
      - destruct (bufferIndex w <? SERIAL_BUFFER_SIZE - 1)%nat.
        + exists []. rewrite app_nil_r. split; reflexivity.
        + eexists; split; reflexivity. }
    exists (ev1 ++ ev2). split.
    + rewrite T2, T1, app_assoc. reflexivity.
    + rewrite no_hw_request_app, N1, N2. reflexivity.
Qed.

(** What the power manager can do. *)
Lemma managePowerSaving_cases (now : Z) (m : SystemMetrics) :
  managePowerSaving now m = (m, []) \/
  (power_save_mode m = false /\ connected m = false /\
   managePowerSaving now m = (set_power_save_mode true m, enter_actions)) \/
  (power_save_mode m = true /\ connected m = true /\
   managePowerSaving now m = (set_power_save_mode false m, exit_actions)).
Proof.
  unfold managePowerSaving, enterPowerSaveMode, exitPowerSaveMode.
  destruct (connected m); cbn [negb].
  - destruct (power_save_mode m); cbn [negb]; auto.
  - destruct (POWER_SAVE_DELAY_MS <? ulong_sub now (disconnect_time m));
      destruct (power_save_mode m); cbn [negb andb]; auto.
Qed.

Lemma checkConnectionStatus_no_hw (now : Z) (m : SystemMetrics) :
  no_hw_request (snd (checkConnectionStatus now m)) = true.
Proof.
  unfold checkConnectionStatus. destruct (connected m); [|reflexivity].
  destruct (DATA_TIMEOUT_MS <? _); reflexivity.
Qed.

Lemma loop_hw_in_step (t : Readings) (rx : list ascii) (w : State) :
  hw_in_step w -> hw_in_step (loop t rx w).
Proof.
  intros [HB HC].
  destruct (loop_shape t rx w) as [M [shown [Hs T]]]. cbv zeta in *.
  destruct (processSerialData_no_hw (at_serial t) rx w) as [e1 [T1 N1]].
  destruct (processSerialData_summary (at_serial t) rx w)
    as [_ [_ [_ [_ [_ [P1 _]]]]]].
  set (w1 := processSerialData (at_serial t) rx w) in *.
  destruct (checkConnectionStatus_summary (at_check t) (metrics w1))
    as [_ [_ [P2 _]]].
  pose proof (checkConnectionStatus_no_hw (at_check t) (metrics w1)) as N2.
  set (c := checkConnectionStatus (at_check t) (metrics w1)) in *.
  cbv zeta in P2.
  destruct (no_hw_request_last _ N1) as [B1 C1].
  destruct (no_hw_request_last _ N2) as [B2 C2].
  unfold hw_in_step. rewrite M, T, T1.
  match goal with |- context [shown ++ ?l] => set (tl := shown ++ l) end.
  assert (N4 : no_hw_request tl = true).
  { unfold tl. rewrite no_hw_request_app.
    destruct Hs as [->| ->]; reflexivity. }
  destruct (no_hw_request_last _ N4) as [B4 C4].
  rewrite !last_backlight_app, !last_cpu_mhz_app.
  rewrite B4, C4, B2, C2, B1, C1.
  destruct (managePowerSaving_cases (at_power t) (fst c))
    as [E|[[P [_ E]]|[P [_ E]]]]; rewrite E; cbn [fst snd]; simpl_fields.
  - rewrite P2, P1. split; assumption.
  - split; reflexivity.
  - split; reflexivity.
Qed.

End HardwareRequests.

(** X8. The power-save flag is always in step with the hardware requests:
    in every state reached from boot, if power-save is on, the last backlight
    request was the power-save level 0 and the last clock request 80 MHz; if
    it is off, either no request has been made yet or the last ones were the
    normal level 5 and 160 MHz. *)
Theorem power_flag_matches_requests (steps : list (Readings * list ascii)) :
  let w := run steps state0 in
  (power_save_mode (metrics w) = true ->
   last_backlight (trace w) = Some 0 /\ last_cpu_mhz (trace w) = Some 80) /\
  (power_save_mode (metrics w) = false ->
   (last_backlight (trace w) = None \/ last_backlight (trace w) = Some 5) /\
   (last_cpu_mhz (trace w) = None \/ last_cpu_mhz (trace w) = Some 160)).
Proof.
  cbv zeta.
  assert (H : forall w, hw_in_step w -> hw_in_step (run steps w)).
  { induction steps as [|[t rx] steps IH]; intros w Hw; simpl; [exact Hw|].
    apply IH, loop_hw_in_step, Hw. }
  assert (H0 : hw_in_step state0) by (split; reflexivity).
  destruct (H state0 H0) as [HB HC].
  destruct (power_save_mode (metrics (run steps state0))).
  - split; [|discriminate]. intros _. split; assumption.
  - split; [discriminate|]. intros _. split.
    + destruct (last_backlight _); [right; exact HB | left; reflexivity].
    + destruct (last_cpu_mhz _); [right; exact HC | left; reflexivity].
Qed.

Lemma power_flag_matches_requests_witness :
  last_backlight (trace (run (idle [at_time 10001]) state0)) = Some 0.
Proof.
  apply (power_flag_matches_requests (idle [at_time 10001])). reflexivity.
Defined.

(** X7. Every iteration of the loop, from any state, ends with power-save
    off if the link is connected, and ends by sleeping 100 ms if power-save
    is on and 5 ms otherwise. *)
Theorem loop_end_state (t : Readings) (rx : list ascii) (w : State) :
  let w' := loop t rx w in
  (connected (metrics w') = true -> power_save_mode (metrics w') = false) /\
  exists before,
    trace w' = before
               ++ [Timer_Loop;
                   delay (if power_save_mode (metrics w') then 100 else 5)].
Proof.
  cbv zeta. destruct (loop_shape t rx w) as [M [shown [_ T]]]. cbv zeta in *.
  split.
  - rewrite M.
    set (m2 := fst (checkConnectionStatus (at_check t)
                      (metrics (processSerialData (at_serial t) rx w)))).
    destruct (managePowerSaving_cases (at_power t) m2)
      as [E|[[P [C E]]|[P [C E]]]]; rewrite E; cbn [fst]; simpl_fields.
    + intros C. unfold managePowerSaving in E. rewrite C in E. cbn [negb] in E.
      destruct (power_save_mode m2) eqn:P; [|reflexivity].
      unfold exitPowerSaveMode in E. rewrite P in E. cbn [negb] in E.
      discriminate.
    + congruence.
    + reflexivity.
  - rewrite T, M. rewrite !app_assoc. eexists. reflexivity.
Qed.

Lemma loop_end_state_witness :
  power_save_mode
    (metrics (loop (at_time 20000)
                (lit "CPU:45.2,RAM:67.8,TEMP:58.5,CHK:171" ++ [LF])
                (run (idle [at_time 10001]) state0))) = false.
Proof.
  apply (loop_end_state (at_time 20000)
           (lit "CPU:45.2,RAM:67.8,TEMP:58.5,CHK:171" ++ [LF])
           (run (idle [at_time 10001]) state0)).
  reflexivity.
Defined.

(** * The display refresh *)

Lemma no_ui_update_filter (l : list Event) :
  no_ui_update l = true -> List.filter is_ui_update l = [].
Proof.
  induction l as [|e l IH]; simpl; [reflexivity|].
  rewrite andb_true_iff, negb_true_iff. intros [-> H]. apply IH, H.
Qed.

Lemma checkConnectionStatus_no_ui (now : Z) (m : SystemMetrics) :
  no_ui_update (snd (checkConnectionStatus now m)) = true.
Proof.
  unfold checkConnectionStatus. destruct (connected m); [|reflexivity].
  destruct (DATA_TIMEOUT_MS <? _); reflexivity.
Qed.

Lemma managePowerSaving_no_ui (now : Z) (m : SystemMetrics) :
  no_ui_update (snd (managePowerSaving now m)) = true.
Proof.
  destruct (managePowerSaving_cases now m) as [E|[[_ [_ E]]|[_ [_ E]]]];
    rewrite E; reflexivity.
Qed.

(** X9. The display is refreshed in an iteration exactly when at least
    500 ms (in 32-bit arithmetic) have passed since the last refresh. A
    refresh makes the six GUI calls, once each, with the record as it stands
    at the end of that iteration's decoding, liveness check and power
    management, and restarts the timer; otherwise no GUI call is made and
    the timer is left alone. *)
Theorem display_refresh_throttled (t : Readings) (rx : list ascii) (w : State) :
  let w' := loop t rx w in
  exists ev,
    trace w' = trace w ++ ev /\
    if ulong_sub (at_display t) (lastUpdate w) <? 500
    then lastUpdate w' = lastUpdate w /\ List.filter is_ui_update ev = []
    else lastUpdate w' = at_display t /\
         List.filter is_ui_update ev = ui_updates (metrics w').
Proof.
  cbv zeta.
  destruct (processSerialData_summary (at_serial t) rx w)
    as [e1 [T1 [U1 [_ [_ [_ [_ [L1 _]]]]]]]].
  pose proof (checkConnectionStatus_no_ui (at_check t)
                (metrics (processSerialData (at_serial t) rx w))) as U2.
  pose proof (managePowerSaving_no_ui (at_power t)
                (fst (checkConnectionStatus (at_check t)
                        (metrics (processSerialData (at_serial t) rx w))))) as U3.
  unfold loop, on_metrics, updateDisplay, emit.
  destruct (checkConnectionStatus (at_check t)
              (metrics (processSerialData (at_serial t) rx w))) as [m2 e2].
  cbn [metrics serialBuffer bufferIndex lastUpdate trace fst snd] in *.
  destruct (managePowerSaving (at_power t) m2) as [m3 e3].
  cbn [metrics serialBuffer bufferIndex lastUpdate trace fst snd] in *.
  rewrite L1.
  destruct (ulong_sub (at_display t) (lastUpdate w) <? 500);
    cbn [metrics serialBuffer bufferIndex lastUpdate trace fst snd].
  - exists (e1 ++ e2 ++ e3
            ++ [Timer_Loop; delay (if power_save_mode m3 then 100 else 5)]).
    split; [rewrite T1, <- !app_assoc; reflexivity|].
    split; [reflexivity|].
    rewrite !List.filter_app, !no_ui_update_filter by assumption. reflexivity.
  - exists (e1 ++ e2 ++ e3 ++ ui_updates m3
            ++ [Timer_Loop; delay (if power_save_mode m3 then 100 else 5)]).
    split; [rewrite T1, <- !app_assoc; reflexivity|].
    split; [reflexivity|].
    rewrite !List.filter_app, !no_ui_update_filter by assumption. reflexivity.
Qed.

(** * A line from the wire to the link state *)

(** X10. From the wire to the link: a line of 1 to 127 bytes without
    terminator or NUL that satisfies the acceptance test, arriving with its
    terminator on an empty buffer, ends the iteration with the record the
    decoder produced, [connected] set, [last_update] at the reader's clock
    reading and power-save off (the liveness check reading the clock within
    the timeout). *)
Theorem valid_line_connects (t : Readings) (w : State) (line : list ascii) :
  well_formed w -> bufferIndex w = 0%nat ->
  (1 <= length line <= 127)%nat ->
  no_terminator line = true -> no_NUL line = true ->
  required_ok line = true ->
  ulong_sub (at_check t) (at_serial t) <= DATA_TIMEOUT_MS ->
  let w' := loop t (line ++ [LF]) w in
  let decoded_record := snd (fst (parseMessage line (metrics w))) in
  metrics w' = set_power_save_mode false
                 (set_connected true
                    (set_last_update (at_serial t) decoded_record)) /\
  connected (metrics w') = true /\ last_update (metrics w') = at_serial t /\
  power_save_mode (metrics w') = false /\
  disconnect_time (metrics w') = disconnect_time (metrics w).
Proof.
  intros W I0 Hlen Hnt Hnul Hok Hsoon. cbv zeta.
  destruct (processSerialData_line (at_serial t) w line LF W I0 Hlen Hnt eq_refl)
    as [_ [_ [Hm _]]].
  rewrite (c_str_no_NUL line Hnul) in Hm.
  pose proof (parseMessage_accepts line (metrics w)) as Hacc.
  rewrite Hok in Hacc. rewrite Hacc in Hm.
  pose proof (parseMessage_link_fields line (metrics w)) as HLF.
  set (d := snd (fst (parseMessage line (metrics w)))) in *.
  unfold link_fields in HLF. injection HLF as _ _ _ HD.
  destruct (loop_shape t (line ++ [LF]) w) as [M _]. cbv zeta in M.
  rewrite Hm in M.
  assert (Hc : checkConnectionStatus (at_check t)
                 (set_connected true (set_last_update (at_serial t) d))
               = (set_connected true (set_last_update (at_serial t) d), [])).
  { unfold checkConnectionStatus. simpl_fields.
    apply Z.ltb_ge in Hsoon. rewrite Hsoon. reflexivity. }
  rewrite Hc in M. cbn [fst] in M.
  assert (Hp : fst (managePowerSaving (at_power t)
                      (set_connected true (set_last_update (at_serial t) d)))
               = set_power_save_mode false
                   (set_connected true (set_last_update (at_serial t) d))).
  { unfold managePowerSaving, exitPowerSaveMode. simpl_fields. cbn [negb].
    destruct (power_save_mode d) eqn:P; cbn [negb fst]; [reflexivity|].
    apply SystemMetrics_ext; unfold link_fields; simpl_fields;
      rewrite ?P; reflexivity. }
  rewrite Hp in M. rewrite M. simpl_fields.
  repeat match goal with |- _ /\ _ => split end; try reflexivity. exact HD.
Qed.

Lemma valid_line_connects_witness :
  connected (metrics (loop (at_time 42)
                        (lit "CPU:45.2,RAM:67.8,TEMP:58.5,CHK:171" ++ [LF])
                        state0)) = true.
Proof.
  apply (valid_line_connects (at_time 42) state0
           (lit "CPU:45.2,RAM:67.8,TEMP:58.5,CHK:171")); try reflexivity.
  - split; [reflexivity | unfold SERIAL_BUFFER_SIZE; simpl; lia].
  - simpl; lia.
  - vm_compute. discriminate.
Defined.

(** X11. Traffic that is not accepted does not keep the link alive: a
    complete line that fails the acceptance test leaves [last_update],
    [connected], [power_save_mode] and [disconnect_time] as they were and
    reports no reconnect; so when the timeout has run out, the iteration that
    reads such a line still ends disconnected, with [disconnect_time] at the
    liveness check's clock reading. *)
Theorem rejected_line_keeps_link_state
    (t : Readings) (w : State) (line : list ascii) :
  well_formed w -> bufferIndex w = 0%nat ->
  (1 <= length line <= 127)%nat ->
  no_terminator line = true -> no_NUL line = true ->
  required_ok line = false ->
  let w1 := processSerialData (at_serial t) (line ++ [LF]) w in
  link_fields (metrics w1) = link_fields (metrics w) /\
  trace w1 = trace w ++ Call_parseMessage line
                        :: snd (parseMessage line (metrics w)) /\
  (connected (metrics w) = true ->
   DATA_TIMEOUT_MS < ulong_sub (at_check t) (last_update (metrics w)) ->
   connected (metrics (loop t (line ++ [LF]) w)) = false /\
   disconnect_time (metrics (loop t (line ++ [LF]) w)) = at_check t).
Proof.
  intros W I0 Hlen Hnt Hnul Hbad. cbv zeta.
  destruct (processSerialData_line (at_serial t) w line LF W I0 Hlen Hnt eq_refl)
    as [_ [_ [Hm Ht]]].
  rewrite (c_str_no_NUL line Hnul) in Hm, Ht.
  pose proof (parseMessage_accepts line (metrics w)) as Hacc.
  rewrite Hbad in Hacc. rewrite Hacc in Hm, Ht. cbn [andb] in Ht.
  rewrite app_nil_r in Ht.
  pose proof (parseMessage_link_fields line (metrics w)) as HLF.
  rewrite <- Hm in HLF.
  split; [exact HLF|]. split; [exact Ht|].
  intros C T.
  destruct (loop_shape t (line ++ [LF]) w) as [M _]. cbv zeta in M.
  unfold link_fields in HLF. injection HLF as HU HC _ _.
  set (m1 := metrics (processSerialData (at_serial t) (line ++ [LF]) w)) in *.
  assert (Hc : checkConnectionStatus (at_check t) m1
               = (set_disconnect_time (at_check t) (set_connected false m1),
                  [Serial_println "Connection lost - no data received"])).
  { unfold checkConnectionStatus. rewrite HC, C, HU.
    apply Z.ltb_lt in T. rewrite T. reflexivity. }
  rewrite Hc in M. cbn [fst] in M.
  destruct (managePowerSaving_summary (at_power t)
              (set_disconnect_time (at_check t) (set_connected false m1)))
    as [P1 [P2 _]].
  rewrite M, P1, P2. simpl_fields. split; reflexivity.
Qed.

Lemma rejected_line_keeps_link_state_witness :
  let w := loop (at_time 42)
             (lit "CPU:45.2,RAM:67.8,TEMP:58.5,CHK:171" ++ [LF]) state0 in
  link_fields (metrics (processSerialData 6000 (lit "CPU:300,RAM:1,TEMP:1,CHK:1" ++ [LF]) w))
    = link_fields (metrics w).
Proof.
  intros w.
  apply (rejected_line_keeps_link_state (at_time 6000) w
           (lit "CPU:300,RAM:1,TEMP:1,CHK:1")); try reflexivity.
  - split; [vm_compute; reflexivity | vm_compute; lia].
  - simpl; lia.
Defined.

(** * Required values that are not finite numbers *)

Lemma starts_with_ci_head (a : ascii) (needle s : cstr) :
  starts_with_ci (a :: needle) s = true ->
  exists b s', s = b :: s' /\ Ascii.eqb a (tolower b) = true.
Proof.
  destruct s as [|b s']; simpl; [discriminate|].
  rewrite andb_true_iff. intros [H _]. eauto.
Qed.

Lemma scan_number_nan (t : cstr) :
  starts_with_ci (lit "nan") t = true ->
  exists rest, scan_number t = Some (S754_nan, rest).
Proof.
  intros H. unfold scan_number.
  assert (Hi : forall tl, starts_with_ci ("i"%char :: tl) t = false).
  { intros tl. destruct (starts_with_ci_head _ _ _ H) as [b [s' [-> Hb]]].
    simpl. apply Ascii.eqb_eq in Hb. rewrite <- Hb. reflexivity. }
  change (lit "infinity") with ("i"%char :: lit "nfinity").
  change (lit "inf") with ("i"%char :: lit "nf").
  rewrite !Hi, H.
  destruct (drop 3 t) as [|c u]; [eauto|].
  destruct (Ascii.eqb c "("); [|eauto].
  destruct (skip_n_char_seq u); eauto.
Qed.

Lemma scan_number_inf (t : cstr) :
  starts_with_ci (lit "inf") t = true ->
  exists rest, scan_number t = Some (S754_infinity false, rest).
Proof.
  intros H. unfold scan_number. rewrite H.
  destruct (starts_with_ci (lit "infinity") t); eauto.
Qed.

(** X12. The range check does not catch NaN: when the text after [CPU:]
    spells NAN (in any case, after optional white space and sign) and the
    RAM and TEMP values are in range, the line is accepted and [cpu_usage]
    is NaN. *)
Theorem nan_passes_range_check
    (message : cstr) (m : SystemMetrics) (p1 p2 p3 : cstr) :
  occurs (lit ",CHK:") message ->
  strstr message (lit "CPU:") = Some p1 ->
  starts_with_ci (lit "nan") (snd (read_sign (skip_space (advance 4 p1)))) = true ->
  strstr message (lit "RAM:") = Some p2 ->
  strstr message (lit "TEMP:") = Some p3 ->
  within (double_to_float (atof (advance 4 p2))) d100 = true ->
  within (double_to_float (atof (advance 5 p3))) d150 = true ->
  exists m',
    parseMessage message m = (true, m', []) /\ cpu_usage m' = S754_nan.
Proof.
  intros Hchk H1 Hnan H2 H3 Wr Wt.
  apply validateChecksum_occurs in Hchk.
  assert (A : atof (advance 4 p1) = S754_nan).
  { unfold atof, strtod, scan_double.
    destruct (read_sign (skip_space (advance 4 p1))) as [neg u].
    cbn [snd] in Hnan. destruct (scan_number_nan u Hnan) as [rest ->].
    destruct neg; reflexivity. }
  assert (Hreq : required_values message
                 = Some (S754_nan, double_to_float (atof (advance 4 p2)),
                         double_to_float (atof (advance 5 p3)))).
  { unfold required_values. rewrite H1, H2, H3, A. reflexivity. }
  eexists.
  rewrite (parseMessage_required_found message m _ _ _ Hchk Hreq).
  rewrite out_of_range_decoded.
  destruct (within_passes _ _ Wr) as [-> ->].
  destruct (within_passes _ _ Wt) as [-> ->].
  split; [reflexivity|]. apply decoded_required.
Qed.

Lemma nan_passes_range_check_witness :
  exists m',
    parseMessage (lit "CPU:NaN,RAM:67.8,TEMP:58.5,CHK:171") metrics0
      = (true, m', []) /\ cpu_usage m' = S754_nan.
Proof.
  apply (nan_passes_range_check
           (lit "CPU:NaN,RAM:67.8,TEMP:58.5,CHK:171") metrics0
           (lit "CPU:NaN,RAM:67.8,TEMP:58.5,CHK:171")
           (lit "RAM:67.8,TEMP:58.5,CHK:171")
           (lit "TEMP:58.5,CHK:171")); try reflexivity.
  apply validateChecksum_occurs. reflexivity.
Defined.

(** X13. An infinite required value is rejected: when the text after
    [CPU:] spells INF or INFINITY (in any case, with or without sign) and
    the other two required keys are present, the line is rejected as out of
    range. *)
Theorem infinity_is_rejected
    (message : cstr) (m : SystemMetrics) (p1 p2 p3 : cstr) :
  occurs (lit ",CHK:") message ->
  strstr message (lit "CPU:") = Some p1 ->
  starts_with_ci (lit "inf") (snd (read_sign (skip_space (advance 4 p1)))) = true ->
  strstr message (lit "RAM:") = Some p2 ->
  strstr message (lit "TEMP:") = Some p3 ->
  fst (fst (parseMessage message m)) = false /\
  snd (parseMessage message m) = [Serial_println "Error: Values out of range"].
Proof.
  intros Hchk H1 Hinf H2 H3.
  apply validateChecksum_occurs in Hchk.
  assert (A : exists s, atof (advance 4 p1) = S754_infinity s).
  { unfold atof, strtod, scan_double.
    destruct (read_sign (skip_space (advance 4 p1))) as [neg u].
    cbn [snd] in Hinf. destruct (scan_number_inf u Hinf) as [rest ->].
    destruct neg; eexists; reflexivity. }
  destruct A as [s A].
  assert (Hreq : required_values message
                 = Some (S754_infinity s,
                         double_to_float (atof (advance 4 p2)),
                         double_to_float (atof (advance 5 p3)))).
  { unfold required_values. rewrite H1, H2, H3, A. reflexivity. }
  rewrite (parseMessage_required_found message m _ _ _ Hchk Hreq).
  rewrite out_of_range_decoded.
  assert (O : flt_lt (S754_infinity s) d0 || flt_gt (S754_infinity s) d100 = true)
    by (destruct s; reflexivity).
  rewrite O. cbn [orb]. split; reflexivity.
Qed.

Lemma infinity_is_rejected_witness :
  fst (fst (parseMessage (lit "CPU:-Infinity,RAM:67.8,TEMP:58.5,CHK:171") metrics0))
    = false.
Proof.
  apply (infinity_is_rejected
           (lit "CPU:-Infinity,RAM:67.8,TEMP:58.5,CHK:171") metrics0
           (lit "CPU:-Infinity,RAM:67.8,TEMP:58.5,CHK:171")
           (lit "RAM:67.8,TEMP:58.5,CHK:171")
           (lit "TEMP:58.5,CHK:171")); try reflexivity.
  apply validateChecksum_occurs. reflexivity.
Defined.

(** * The GUI update functions *)

(** X14. The colour gradient saturates: every value below 0 gets the colour
    of 0 (the cyan end, mix ratio 0) and every value above 100 the colour of
    100 (the red end, mix ratio 255); in both cases the conversion to
    [uint8_t] is defined. *)
Theorem get_pct_color_saturates (pct : float) :
  (SFltb pct (Ui.f 0) = true ->
   Ui.get_pct_color pct
     = Some (Ui.lv_color_mix (Ui.lv_color_make 0 255 0)
                             (Ui.lv_color_make 0 255 255) 0)) /\
  (SFltb (Ui.f 100) pct = true ->
   Ui.get_pct_color pct
     = Some (Ui.lv_color_mix (Ui.lv_color_make 255 0 0)
                             (Ui.lv_color_make 255 165 0) 255)).
Proof.
  split; intros H.
  - unfold Ui.get_pct_color. rewrite H. vm_compute. reflexivity.
  - assert (L : SFltb pct (Ui.f 0) = false).
    { change (Ui.f 0) with (S754_zero false).
      change (Ui.f 100) with (S754_finite false 13107200 (-17)) in H.
      destruct pct as [s|s| |s m e]; try destruct s; try reflexivity;
        discriminate H. }
    unfold Ui.get_pct_color. rewrite L. cbv zeta. rewrite H.
    vm_compute. reflexivity.
Qed.

Lemma get_pct_color_saturates_witness :
  Ui.get_pct_color (decimal_to_float 250 0)
    = Some (Ui.lv_color_mix (Ui.lv_color_make 255 0 0)
                            (Ui.lv_color_make 255 165 0) 255).
Proof.
  apply (get_pct_color_saturates (decimal_to_float 250 0)). reflexivity.
Defined.

(** X15. The battery icon never shows more charge for less: the fill level
    of the icon is monotone in the percentage; it is the full icon exactly
    above 90 and the empty icon exactly up to 10, which includes the
    "unavailable" value -1. *)
Theorem battery_symbol_monotone (p q : Z) :
  p <= q ->
  Ui.symbol_level (Ui.battery_symbol p) <= Ui.symbol_level (Ui.battery_symbol q) /\
  (Ui.battery_symbol q = Ui.LV_SYMBOL_BATTERY_FULL <-> 90 < q) /\
  (Ui.battery_symbol p = Ui.LV_SYMBOL_BATTERY_EMPTY <-> p <= 10).
Proof.
  intros H. unfold Ui.battery_symbol.
  destruct (90 <? p) eqn:P1; destruct (60 <? p) eqn:P2;
    destruct (30 <? p) eqn:P3; destruct (10 <? p) eqn:P4;
    destruct (90 <? q) eqn:Q1; destruct (60 <? q) eqn:Q2;
    destruct (30 <? q) eqn:Q3; destruct (10 <? q) eqn:Q4;
    rewrite ?Z.ltb_lt, ?Z.ltb_ge in *; simpl;
    repeat split; intros; try discriminate; try lia.
Qed.

Lemma battery_symbol_monotone_witness :
  Ui.symbol_level (Ui.battery_symbol (-1)) <= Ui.symbol_level (Ui.battery_symbol 95).
Proof.
  destruct (battery_symbol_monotone (-1) 95) as [H _]; [lia | exact H].
Defined.

Lemma battery_colors_defined :
  forallb (fun n => match Ui.get_pct_color
                            (Ui.fsub (Ui.f 100) (Ui.int_to_float (Z.of_nat n))) with
                    | Some _ => true
                    | None => false
                    end) (seq 0 101) = true.
Proof. vm_compute. reflexivity. Qed.

(** X16. For every battery percentage from 0 to 100 the battery update is
    defined (the colour's conversion to [uint8_t] is in range) and makes
    five calls: the percentage text, the realignment of the label, the icon
    for that percentage, and one colour for icon and label. *)
Theorem ui_update_battery_in_range (percent : Z) (power_watts : float) :
  0 <= percent <= 100 ->
  exists col,
    Ui.get_pct_color (Ui.fsub (Ui.f 100) (Ui.int_to_float percent)) = Some col /\
    Ui.ui_update_battery percent power_watts
      = Some [ Ui.lv_label_set_text Ui.ui_BatLabel_Value
                 (Ui.snprintf 16 "%d%%" [Ui.arg_int percent]);
               Ui.lv_obj_align_to Ui.ui_BatLabel_Value Ui.ui_BatIcon
                 Ui.LV_ALIGN_OUT_LEFT_MID (-5) 0;
               Ui.lv_label_set_text Ui.ui_BatIcon
                 (Ui.symbol_text (Ui.battery_symbol percent));
               Ui.lv_obj_set_style_text_color Ui.ui_BatIcon col;
               Ui.lv_obj_set_style_text_color Ui.ui_BatLabel_Value col ].
Proof.
  intros H.
  pose proof battery_colors_defined as A.
  rewrite forallb_forall in A.
  specialize (A (Z.to_nat percent)).
  rewrite Z2Nat.id in A by lia.
  assert (I : In (Z.to_nat percent) (seq 0 101)) by (apply in_seq; lia).
  specialize (A I).
  destruct (Ui.get_pct_color (Ui.fsub (Ui.f 100) (Ui.int_to_float percent)))
    as [col|] eqn:E; [|discriminate].
  exists col. split; [reflexivity|].
  unfold Ui.ui_update_battery. rewrite E.
  assert (P : (0 <=? percent) = true) by (apply Z.leb_le; lia).
  rewrite P. reflexivity.
Qed.

Lemma ui_update_battery_in_range_witness :
  exists col,
    Ui.get_pct_color (Ui.fsub (Ui.f 100) (Ui.int_to_float 85)) = Some col /\
    Ui.ui_update_battery 85 zero_f
      = Some [ Ui.lv_label_set_text Ui.ui_BatLabel_Value
                 (Ui.snprintf 16 "%d%%" [Ui.arg_int 85]);
               Ui.lv_obj_align_to Ui.ui_BatLabel_Value Ui.ui_BatIcon
                 Ui.LV_ALIGN_OUT_LEFT_MID (-5) 0;
               Ui.lv_label_set_text Ui.ui_BatIcon
                 (Ui.symbol_text (Ui.battery_symbol 85));
               Ui.lv_obj_set_style_text_color Ui.ui_BatIcon col;
               Ui.lv_obj_set_style_text_color Ui.ui_BatLabel_Value col ].
Proof. apply (ui_update_battery_in_range 85 zero_f). lia. Defined.

(** X17. What the display shows for optional keys, for every line that
    reaches the optional keys: without [GPU:], or with a [GPU:] value that
    is not a number, the GPU label reads "(not available)" in gray; without
    [BAT:] the battery label reads "--%" with the empty icon, both gray;
    with a [BAT:] value that is not an integer it reads 0 % with the empty
    icon in the colour of an empty battery, not "unavailable". *)
Theorem display_of_optional_keys
    (message : cstr) (m : SystemMetrics) (c r t : float) :
  validateChecksum message = true ->
  required_values message = Some (c, r, t) ->
  let m' := snd (fst (parseMessage message m)) in
  let gpu_unavailable :=
    Some [ Ui.lv_label_set_text Ui.ui_GPULabel_Value
             (Ui.snprintf 32 "(not available)" []);
           Ui.lv_obj_set_style_text_color Ui.ui_GPULabel_Value Ui.gray ] in
  let battery_shown text col :=
    Some [ Ui.lv_label_set_text Ui.ui_BatLabel_Value text;
           Ui.lv_obj_align_to Ui.ui_BatLabel_Value Ui.ui_BatIcon
             Ui.LV_ALIGN_OUT_LEFT_MID (-5) 0;
           Ui.lv_label_set_text Ui.ui_BatIcon
             (Ui.symbol_text Ui.LV_SYMBOL_BATTERY_EMPTY);
           Ui.lv_obj_set_style_text_color Ui.ui_BatIcon col;
           Ui.lv_obj_set_style_text_color Ui.ui_BatLabel_Value col ] in
  (strstr message (lit "GPU:") = None ->
   ui_calls (ui_update_gpu (gpu_usage m')) = gpu_unavailable) /\
  (forall pos, strstr message (lit "GPU:") = Some pos ->
     non_numeric (advance 4 pos) = true ->
     ui_calls (ui_update_gpu (gpu_usage m')) = gpu_unavailable) /\
  (strstr message (lit "BAT:") = None ->
   ui_calls (ui_update_battery (battery_percent m') (power_watts m'))
     = battery_shown (Ui.snprintf 16 "--%%" []) Ui.gray) /\
  (forall pos, strstr message (lit "BAT:") = Some pos ->
     non_integer (advance 4 pos) = true ->
     ui_calls (ui_update_battery (battery_percent m') (power_watts m'))
       = battery_shown (Ui.snprintf 16 "%d%%" [Ui.arg_int 0])
           (Ui.lv_color_mix (Ui.lv_color_make 255 0 0)
                            (Ui.lv_color_make 255 165 0) 255)).
Proof.
  intros Hchk Hreq m'. cbv zeta.
  assert (Hm : m' = decoded message c r t m).
  { unfold m'. rewrite (parseMessage_required_found message m _ _ _ Hchk Hreq).
    destruct (out_of_range _); reflexivity. }
  rewrite Hm. unfold decoded.
  destruct (parse_optional_fields message
              (set_temperature t (set_ram_usage r
                 (set_cpu_usage c (reset_optional m)))))
    as [_ [_ [F2 [_ [_ [_ [F6 _]]]]]]].
  simpl_fields. cbn [ui_calls].
  repeat match goal with |- _ /\ _ => split end.
  - intros H. rewrite F2, H. reflexivity.
  - intros pos H N. rewrite F2, H, (atof_non_numeric _ N). reflexivity.
  - intros H. rewrite F6, H. reflexivity.
  - intros pos H N. rewrite F6, H, (atoi_non_integer _ N).
    vm_compute. reflexivity.
Qed.

Lemma display_of_optional_keys_witness :
  let m' := snd (fst (parseMessage
                        (lit "CPU:45.2,RAM:67.8,TEMP:58.5,BAT:n/a,CHK:171")
                        metrics0)) in
  ui_calls (ui_update_gpu (gpu_usage m'))
    = Some [ Ui.lv_label_set_text Ui.ui_GPULabel_Value
               (Ui.snprintf 32 "(not available)" []);
             Ui.lv_obj_set_style_text_color Ui.ui_GPULabel_Value Ui.gray ].
Proof.
  intros m'.
  apply (display_of_optional_keys
           (lit "CPU:45.2,RAM:67.8,TEMP:58.5,BAT:n/a,CHK:171") metrics0
           (decimal_to_float 452 (-1)) (decimal_to_float 678 (-1))
           (decimal_to_float 585 (-1)) eq_refl eq_refl).
  reflexivity.
Defined.

(** * The record depends on the line alone *)

(** X18. No value leaks from an earlier record: for a line with the
    checksum token and the three required keys, the twelve metric fields
    left by the decoder are the same whatever record it started from,
    whether the line is then accepted or rejected by the range check. *)
Theorem decode_is_history_free
    (message : cstr) (m1 m2 : SystemMetrics) (c r t : float) :
  validateChecksum message = true ->
  required_values message = Some (c, r, t) ->
  metric_fields (snd (fst (parseMessage message m1)))
    = metric_fields (snd (fst (parseMessage message m2))) /\
  fst (fst (parseMessage message m1)) = fst (fst (parseMessage message m2)).
Proof.
  intros Hchk Hreq.
  split; [|rewrite !parseMessage_accepts; reflexivity].
  assert (E : forall m, snd (fst (parseMessage message m))
                        = decoded message c r t m).
  { intros m. rewrite (parseMessage_required_found message m _ _ _ Hchk Hreq).
    destruct (out_of_range _); reflexivity. }
  rewrite !E. unfold decoded, metric_fields.
  destruct (parse_optional_fields message
              (set_temperature t (set_ram_usage r
                 (set_cpu_usage c (reset_optional m1)))))
    as [[A1 [A2 [A3 _]]] [A4 [A5 [A6 [A7 [A8 [A9 A10]]]]]]].
  destruct (parse_optional_fields message
              (set_temperature t (set_ram_usage r
                 (set_cpu_usage c (reset_optional m2)))))
    as [[B1 [B2 [B3 _]]] [B4 [B5 [B6 [B7 [B8 [B9 B10]]]]]]].
  simpl_fields.
  injection (eq_trans A6 (eq_sym B6)) as -> ->.
  injection (eq_trans A8 (eq_sym B8)) as -> ->.
  rewrite A1, A2, A3, A4, A5, A7, A9, A10, B1, B2, B3, B4, B5, B7, B9, B10.
  reflexivity.
Qed.

Lemma decode_is_history_free_witness :
  let line := lit "CPU:45.2,RAM:67.8,TEMP:58.5,CHK:171" in
  let earlier :=
    snd (fst (parseMessage
                (lit "CPU:1,RAM:2,TEMP:3,FAN:1500,BAT:80,CHK:1") metrics0)) in
  metric_fields (snd (fst (parseMessage line earlier)))
    = metric_fields (snd (fst (parseMessage line metrics0))).
Proof.
  intros line earlier.
  apply (decode_is_history_free line earlier metrics0
           (decimal_to_float 452 (-1)) (decimal_to_float 678 (-1))
           (decimal_to_float 585 (-1)) eq_refl eq_refl).
Defined.

(** * The recorded disconnect time *)

Lemma loop_disconnect_after_timeout (t : Readings) (rx : list ascii) (w : State) :
  disconnect_after_timeout (metrics w) ->
  disconnect_after_timeout (metrics (loop t rx w)).
Proof.
  intros J.
  destruct (loop_shape t rx w) as [M _]. cbv zeta in M.
  destruct (processSerialData_summary (at_serial t) rx w)
    as [ev [_ [_ [_ [_ [_ [D1 [_ K]]]]]]]].
  set (m1 := metrics (processSerialData (at_serial t) rx w)) in *.
  assert (J1 : disconnect_after_timeout m1).
  { unfold disconnect_after_timeout in *. intros C1.
    destruct K as [[KC KL]|[KC _]]; [|congruence].
    rewrite D1, KL. apply J. congruence. }
  destruct (managePowerSaving_summary (at_power t)
              (fst (checkConnectionStatus (at_check t) m1)))
    as [P1 [P2 [P3 _]]].
  unfold disconnect_after_timeout. rewrite M, P1, P2, P3.
  unfold checkConnectionStatus.
  destruct (connected m1) eqn:C1.
  - destruct (DATA_TIMEOUT_MS <? ulong_sub (at_check t) (last_update m1)) eqn:T;
      cbn [fst]; simpl_fields.
    + intros _. right. apply Z.ltb_lt in T. exact T.
    + congruence.
  - cbn [fst]. intros _. apply J1. exact C1.
Qed.

(** X19. In every state reached from boot in which the link is
    disconnected, the recorded [disconnect_time] lies more than the 5000 ms
    timeout (in 32-bit arithmetic) after [last_update], the stamp of the
    last accepted line, unless both still have their boot value 0. The
    power-save delay therefore always starts after a full timeout without
    an accepted line. *)
Theorem disconnect_time_follows_timeout (steps : list (Readings * list ascii)) :
  let m := metrics (run steps state0) in
  connected m = false ->
  (disconnect_time m = 0 /\ last_update m = 0) \/
  DATA_TIMEOUT_MS < ulong_sub (disconnect_time m) (last_update m).
Proof.
  cbv zeta.
  assert (H : forall w, disconnect_after_timeout (metrics w) ->
                        disconnect_after_timeout (metrics (run steps w))).
  { induction steps as [|[t rx] steps IH]; intros w Hw; simpl; [exact Hw|].
    apply IH, loop_disconnect_after_timeout, Hw. }
  apply H. intros _. left. split; reflexivity.
Qed.

Lemma disconnect_time_follows_timeout_witness :
  let m := metrics (run [ (at_time 100,
                           lit "CPU:45.2,RAM:67.8,TEMP:58.5,CHK:171" ++ [LF]);
                          (at_time 5101, []) ] state0) in
  (disconnect_time m = 0 /\ last_update m = 0) \/
  DATA_TIMEOUT_MS < ulong_sub (disconnect_time m) (last_update m).
Proof.
  apply (disconnect_time_follows_timeout
           [ (at_time 100, lit "CPU:45.2,RAM:67.8,TEMP:58.5,CHK:171" ++ [LF]);
             (at_time 5101, []) ]).
  vm_compute. reflexivity.
Defined.
